(** * ABDM gateway and hospital: a shallow embedding of the service layer

    The gateway services ([app/services/data_service.py],
    [app/services/consent_service.py]) and the hospital's patient
    registration route ([app/api/routes/patient.py]) are embedded as
    functions over an explicit database state.  Database sessions become
    state passing, Python exceptions become the [Raise] outcome, and the
    outside world (clock, uuid generator, webhook peer, encryptor) is an
    explicit environment. *)

From stdpp Require Import gmap strings list fin_maps.
From Stdlib Require Import ZArith Ascii.
From Stdlib Require String DecimalNat.

Local Open Scope Z_scope.

(** ** Python values shared by the services *)

(** A JSON-like response dictionary: keys with string values, in the order
    the source writes them. *)
Definition Dict := list (string * string).

Fixpoint dict_get (k : string) (d : Dict) : option string :=
  match d with
  | [] => None
  | (k', v) :: d' => if String.eqb k k' then Some v else dict_get k d'
  end.

(** Python truthiness of a [str]: the empty string is falsy. *)
Definition truthy (s : string) : bool :=
  match s with EmptyString => false | _ => true end.

(** [x or default] on strings. *)
Definition str_or (s d : string) : string := if truthy s then s else d.

(** [datetime] values are microseconds since the epoch. *)
Definition datetime := Z.

(** [timedelta(hours=h)] in microseconds. *)
Definition timedelta_hours (h : Z) : Z := h * 3600 * 1000000.

(** ** Service code as state passing *)

Inductive result (X A : Type) :=
  | Return (a : A)
  | Raise (x : X).
Arguments Return {X A} a.
Arguments Raise {X A} x.

(** Service code reads its environment [E], threads the state [W] and may
    raise an exception of [X].  What was committed before an exception
    stays committed. *)
Definition Eff (E W X A : Type) : Type := E → W → result X A * W.

#[global] Instance Eff_ret {E W X} : MRet (Eff E W X) :=
  λ A a _ w, (Return a, w).
#[global] Instance Eff_bind {E W X} : MBind (Eff E W X) :=
  λ A B f m e w,
    match m e w with
    | (Return a, w') => f a e w'
    | (Raise x, w') => (Raise x, w')
    end.

Definition raise {E W X A} (x : X) : Eff E W X A := λ _ w, (Raise x, w).

(** ** Health-data bundles and blobs *)

Module Codec.

(** Modelled from the spec: the payload codec ([app/utils/encryption.py]
    of both services is not among the sources).  A bundle is a sequence of
    typed records, each with free-form fields; [Unknown] is the open
    fallback of section 9 and keeps the raw type tag. *)
Inductive record_kind :=
  | Prescription
  | DiagnosticReport
  | LabReport
  | Immunization
  | Unknown (tag : string).

Record health_record := HealthRecord {
  kind : record_kind;
  fields : list (string * string)
}.

Definition bundle := list health_record.

(** An encrypted payload at rest. *)
Definition blob := list ascii.

Inductive decode_error := DecodeError.

(** *** The wire format

    Numbers are written in decimal and closed by a colon; a string is its
    length followed by its characters; a list is its length followed by
    its elements. *)

Fixpoint put_uint (d : Decimal.uint) : list ascii :=
  match d with
  | Decimal.Nil => []
  | Decimal.D0 d' => "0"%char :: put_uint d'
  | Decimal.D1 d' => "1"%char :: put_uint d'
  | Decimal.D2 d' => "2"%char :: put_uint d'
  | Decimal.D3 d' => "3"%char :: put_uint d'
  | Decimal.D4 d' => "4"%char :: put_uint d'
  | Decimal.D5 d' => "5"%char :: put_uint d'
  | Decimal.D6 d' => "6"%char :: put_uint d'
  | Decimal.D7 d' => "7"%char :: put_uint d'
  | Decimal.D8 d' => "8"%char :: put_uint d'
  | Decimal.D9 d' => "9"%char :: put_uint d'
  end.

Definition digit (c : ascii) : option (Decimal.uint → Decimal.uint) :=
  if Ascii.eqb c "0" then Some Decimal.D0
  else if Ascii.eqb c "1" then Some Decimal.D1
  else if Ascii.eqb c "2" then Some Decimal.D2
  else if Ascii.eqb c "3" then Some Decimal.D3
  else if Ascii.eqb c "4" then Some Decimal.D4
  else if Ascii.eqb c "5" then Some Decimal.D5
  else if Ascii.eqb c "6" then Some Decimal.D6
  else if Ascii.eqb c "7" then Some Decimal.D7
  else if Ascii.eqb c "8" then Some Decimal.D8
  else if Ascii.eqb c "9" then Some Decimal.D9
  else None.

Fixpoint get_uint (inp : list ascii) : option (Decimal.uint * list ascii) :=
  match inp with
  | [] => None
  | c :: inp' =>
      if Ascii.eqb c ":" then Some (Decimal.Nil, inp')
      else
        f ← digit c;
        '(d, rest) ← get_uint inp';
        Some (f d, rest)
  end.

Definition put_nat (n : nat) : list ascii :=
  put_uint (Nat.to_uint n) ++ [":"%char].

Definition get_nat (inp : list ascii) : option (nat * list ascii) :=
  '(d, rest) ← get_uint inp;
  Some (Nat.of_uint d, rest).

Definition put_string (s : string) : list ascii :=
  put_nat (String.length s) ++ String.list_ascii_of_string s.

Definition get_string (inp : list ascii) : option (string * list ascii) :=
  '(n, rest) ← get_nat inp;
  if decide (n ≤ length rest)%nat
  then Some (String.string_of_list_ascii (take n rest), drop n rest)
  else None.

Definition put_list {A} (put : A → list ascii) (xs : list A) : list ascii :=
  put_nat (length xs) ++ flat_map put xs.

Fixpoint get_many {A} (get : list ascii → option (A * list ascii)) (n : nat)
    (inp : list ascii) : option (list A * list ascii) :=
  match n with
  | O => Some ([], inp)
  | S n' =>
      '(x, rest) ← get inp;
      '(xs, rest') ← get_many get n' rest;
      Some (x :: xs, rest')
  end.

Definition get_list {A} (get : list ascii → option (A * list ascii))
    (inp : list ascii) : option (list A * list ascii) :=
  '(n, rest) ← get_nat inp;
  get_many get n rest.

Definition put_field (f : string * string) : list ascii :=
  put_string (fst f) ++ put_string (snd f).

Definition get_field (inp : list ascii) : option ((string * string) * list ascii) :=
  '(k, rest) ← get_string inp;
  '(v, rest') ← get_string rest;
  Some ((k, v), rest').

Definition put_kind (k : record_kind) : list ascii :=
  match k with
  | Prescription => ["P"%char]
  | DiagnosticReport => ["D"%char]
  | LabReport => ["L"%char]
  | Immunization => ["I"%char]
  | Unknown tag => "U"%char :: put_string tag
  end.

Definition get_kind (inp : list ascii) : option (record_kind * list ascii) :=
  match inp with
  | [] => None
  | c :: rest =>
      if Ascii.eqb c "P" then Some (Prescription, rest)
      else if Ascii.eqb c "D" then Some (DiagnosticReport, rest)
      else if Ascii.eqb c "L" then Some (LabReport, rest)
      else if Ascii.eqb c "I" then Some (Immunization, rest)
      else if Ascii.eqb c "U" then
        '(tag, rest') ← get_string rest;
        Some (Unknown tag, rest')
      else None
  end.

Definition put_record (r : health_record) : list ascii :=
  put_kind (kind r) ++ put_list put_field (fields r).

Definition get_record (inp : list ascii) : option (health_record * list ascii) :=
  '(k, rest) ← get_kind inp;
  '(fs, rest') ← get_list get_field rest;
  Some (HealthRecord k fs, rest').

(** Modelled from the spec: the plain form of a bundle inside the codec
    (the codec's source is missing); every record shape has one. *)
Definition serialize (b : bundle) : list ascii := put_list put_record b.

(** Modelled from the spec: reading the plain form back (the codec's
    source is missing); nothing may follow the last record. *)
Definition deserialize (inp : list ascii) : option bundle :=
  match get_list get_record inp with
  | Some (b, []) => Some b
  | _ => None
  end.

(** *** The cipher: the plain text is combined, byte by byte, with the key
    repeated as often as needed; an empty key leaves the text as it is. *)

Definition xor_ascii (k c : ascii) : ascii :=
  match k, c with
  | Ascii k0 k1 k2 k3 k4 k5 k6 k7, Ascii c0 c1 c2 c3 c4 c5 c6 c7 =>
      Ascii (xorb k0 c0) (xorb k1 c1) (xorb k2 c2) (xorb k3 c3)
            (xorb k4 c4) (xorb k5 c5) (xorb k6 c6) (xorb k7 c7)
  end.

Fixpoint xor_stream (key ahead data : list ascii) : list ascii :=
  match data with
  | [] => []
  | c :: data' =>
      match ahead with
      | k :: ahead' => xor_ascii k c :: xor_stream key ahead' data'
      | [] =>
          match key with
          | k :: key' => xor_ascii k c :: xor_stream key key' data'
          | [] => c :: xor_stream key [] data'
          end
      end
  end.

(** Modelled from the spec: the keyed transformation that makes the
    payload opaque at rest (the codec's source is missing). *)
Definition cipher (key : list ascii) (data : list ascii) : list ascii :=
  xor_stream key key data.

(** Modelled from the spec: [encrypt(bundle) -> blob] of section 4.5,
    opaque at rest and reversible with the system's key. *)
Definition encrypt (key : list ascii) (b : bundle) : blob :=
  cipher key (serialize b).

(** Modelled from the spec: [decrypt(blob) -> bundle] of section 4.5; a
    blob that does not decode fails with [DecodeError]. *)
Definition decrypt (key : list ascii) (payload : blob)
  : result decode_error bundle :=
  match deserialize (cipher key payload) with
  | Some b => Return b
  | None => Raise DecodeError
  end.

End Codec.

(** ** The gateway *)

Module Gateway.

(** Modelled from the spec: the gateway tables (their declarations, in
    [app/database/models.py], are not among the sources).  Section 3 gives
    every record an identity, and the services fetch by it, so a table is
    a map from its identifying column ([abha_id], [consent_request_id],
    [transfer_id]) to the remaining columns; of those, the ones the
    services below write are kept. *)
Record Patient := mkPatient {
  name : string
}.

Record ConsentRequest := mkConsent {
  consent_patient_abha_id : string;
  consent_hip_id : string;
  purpose : Dict;
  consent_status : string
}.

Record DataTransfer := mkTransfer {
  transfer_consent_request_id : string;
  patient_abha_id : string;
  from_entity : string;
  to_entity : string;
  status : string;
  data_count : nat;
  next_retry_at : option datetime;
  expires_at : option datetime;
  encrypted_data : option Codec.blob
}.

Definition set_consent_status (s : string) (c : ConsentRequest) : ConsentRequest :=
  mkConsent (consent_patient_abha_id c) (consent_hip_id c)
            (purpose c) s.

Definition set_status (s : string) (t : DataTransfer) : DataTransfer :=
  mkTransfer (transfer_consent_request_id t) (patient_abha_id t)
             (from_entity t) (to_entity t) s (data_count t) (next_retry_at t)
             (expires_at t) (encrypted_data t).

(** The three assignments of [receive_health_data_from_hip]. *)
Definition set_ready (payload : Codec.blob) (now : datetime) (t : DataTransfer)
  : DataTransfer :=
  mkTransfer (transfer_consent_request_id t) (patient_abha_id t)
             (from_entity t) (to_entity t) "READY" (data_count t) (Some now)
             (expires_at t) (Some payload).

(** The database. *)
Record DB := mkDB {
  patients : gmap string Patient;
  consent_requests : gmap string ConsentRequest;
  data_transfers : gmap string DataTransfer
}.

Definition set_patients (m : gmap string Patient) (d : DB) : DB :=
  mkDB m (consent_requests d) (data_transfers d).
Definition set_consent_requests (m : gmap string ConsentRequest) (d : DB) : DB :=
  mkDB (patients d) m (data_transfers d).
Definition set_data_transfers (m : gmap string DataTransfer) (d : DB) : DB :=
  mkDB (patients d) (consent_requests d) m.

(** The keyword arguments of [task_processor.send_hip_data_request]. *)
Record HipDataRequest := mkHipDataRequest {
  hdr_transfer_id : string;
  hdr_hip_id : string;
  hdr_hiu_id : string;
  hdr_patient_id : string;
  hdr_consent_id : string;
  hdr_care_context_ids : list string;
  hdr_data_types : list string
}.

(** The state a service call runs in: the database, how often the clock
    and the uuid generator were consulted, and the webhook calls made so
    far, each with the database it was handed. *)
Record World := mkWorld {
  db : DB;
  clock_reads : nat;
  uuid_calls : nat;
  dispatched : list (DB * HipDataRequest)
}.

Definition set_db (d : DB) (w : World) : World :=
  mkWorld d (clock_reads w) (uuid_calls w) (dispatched w).

(** The outside world.  [utcnow k] is the [k]-th reading of
    [datetime.utcnow()], [uuid4 k] the [k]-th [uuid.uuid4()],
    [hip_webhook k] whether the [k]-th webhook call got through.
    [patient_fk] and [consent_fk] say whether the database enforces the
    foreign key of a transfer on its patient and on its consent: the
    services' docstrings speak of FK constraints, the table declarations
    are not among the sources, and a database enforces a foreign key only
    if it is declared and switched on. *)
Record Env := mkEnv {
  utcnow : nat → datetime;
  uuid4 : nat → string;
  hip_webhook : nat → bool;
  encrypt_dict : Codec.bundle → Codec.blob;
  patient_fk : bool;
  consent_fk : bool
}.

Inductive exn :=
  | IntegrityError (table : string).

Abbreviation M := (Eff Env World exn).

Definition get_db : M DB := λ _ w, (Return (db w), w).
Definition put_db (d : DB) : M unit := λ _ w, (Return tt, set_db d w).

(** [datetime.utcnow()] *)
Definition now : M datetime := λ e w,
  (Return (utcnow e (clock_reads w)),
   mkWorld (db w) (S (clock_reads w)) (uuid_calls w) (dispatched w)).

(** [str(uuid.uuid4())] *)
Definition new_uuid : M string := λ e w,
  (Return (uuid4 e (uuid_calls w)),
   mkWorld (db w) (clock_reads w) (S (uuid_calls w)) (dispatched w)).

(** [encryptor.encrypt_dict(health_data)] *)
Definition encrypt (x : Codec.bundle) : M Codec.blob := λ e w,
  (Return (encrypt_dict e x), w).

(** [db.add(row); await db.commit()]: the insert fails on a taken key.
    [request_health_info] and [init_consent] store the rows their new row
    refers to before they insert it, so no foreign key can fail there;
    [send_health_info] does not, and asks [dangling] first. *)
Definition add_patient (abha_id : string) (p : Patient) : M unit :=
  d ← get_db;
  match patients d !! abha_id with
  | Some _ => raise (IntegrityError "patients")
  | None => put_db (set_patients (<[abha_id := p]> (patients d)) d)
  end.

Definition add_consent (consent_request_id : string) (c : ConsentRequest)
  : M unit :=
  d ← get_db;
  match consent_requests d !! consent_request_id with
  | Some _ => raise (IntegrityError "consent_requests")
  | None =>
      put_db (set_consent_requests
                (<[consent_request_id := c]> (consent_requests d)) d)
  end.

Definition add_transfer (transfer_id : string) (t : DataTransfer) : M unit :=
  d ← get_db;
  match data_transfers d !! transfer_id with
  | Some _ => raise (IntegrityError "data_transfers")
  | None =>
      put_db (set_data_transfers (<[transfer_id := t]> (data_transfers d)) d)
  end.

(** No row is found under a key. *)
Definition missing {A} (row : option A) : bool :=
  match row with Some _ => false | None => true end.

(** The commit of a transfer row fails on a reference the database
    enforces and does not find. *)
Definition dangling (t : DataTransfer) : M bool := λ e w,
  (Return ((patient_fk e && missing (patients (db w) !! patient_abha_id t))
           || (consent_fk e
               && missing (consent_requests (db w)
                             !! transfer_consent_request_id t))),
   w).

(** Committing a change made to a loaded row. *)
Definition update_consent (consent_request_id : string) (c : ConsentRequest)
  : M unit :=
  d ← get_db;
  put_db (set_consent_requests
            (<[consent_request_id := c]> (consent_requests d)) d).

Definition update_transfer (transfer_id : string) (t : DataTransfer) : M unit :=
  d ← get_db;
  put_db (set_data_transfers (<[transfer_id := t]> (data_transfers d)) d).

(** Modelled from the spec: [task_processor.send_hip_data_request]
    (app/services/task_processor.py is not among the sources), the webhook
    dispatcher of section 4.4: a pure boundary that delivers to the target
    entity and answers success or failure.  The call is recorded together
    with the database it was given. *)
Definition send_hip_data_request (r : HipDataRequest) : M bool := λ e w,
  (Return (hip_webhook e (length (dispatched w))),
   mkWorld (db w) (clock_reads w) (uuid_calls w) (dispatched w ++ [(db w, r)])).

(** *** data_service.py *)

Definition _ensure_patient (patient_abha_id : string) : M Patient :=
  d ← get_db;
  match patients d !! patient_abha_id with
  | Some patient => mret patient
  | None =>
      let patient := mkPatient ("Patient " +:+ patient_abha_id) in
      add_patient patient_abha_id patient;;
      mret patient
  end.

Definition fresh_consent (consent_id : option string)
    (patient_abha_id hip_id : string) : M string :=
  new_consent_id ←
    (match consent_id with
     | Some c => if truthy c then mret c
                 else u ← new_uuid; mret ("consent-" +:+ u)
     | None => u ← new_uuid; mret ("consent-" +:+ u)
     end);
  let consent :=
    mkConsent patient_abha_id hip_id
              [("text", "Auto-approved for data transfer")] "APPROVED" in
  add_consent new_consent_id consent;;
  mret new_consent_id.

Definition _ensure_consent_approved (consent_id : option string)
    (patient_abha_id hip_id : string) : M string :=
  match consent_id with
  | Some c =>
      if truthy c then
        d ← get_db;
        match consent_requests d !! c with
        | Some consent =>
            (if negb (String.eqb (consent_status consent) "APPROVED")
             then update_consent c (set_consent_status "APPROVED" consent)
             else mret tt);;
            mret c
        | None => fresh_consent consent_id patient_abha_id hip_id
        end
      else fresh_consent consent_id patient_abha_id hip_id
  | None => fresh_consent consent_id patient_abha_id hip_id
  end.

Definition request_health_info (patient_abha_id hip_id hiu_id : string)
    (consent_id : option string) (care_context_ids data_types : list string)
  : M Dict :=
  _ensure_patient patient_abha_id;;
  approved_consent_id ← _ensure_consent_approved consent_id patient_abha_id hip_id;
  u ← new_uuid;
  let request_id := "req-" +:+ u in
  t_next ← now;
  t_exp ← now;
  let new_transfer :=
    mkTransfer approved_consent_id patient_abha_id hip_id
               (str_or hiu_id "unknown-hiu") "REQUESTED" (length data_types)
               (Some t_next) (Some (t_exp + timedelta_hours 24)) None in
  add_transfer request_id new_transfer;;
  webhook_sent ← send_hip_data_request
    (mkHipDataRequest request_id hip_id hiu_id patient_abha_id
                      approved_consent_id care_context_ids data_types);
  let new_status := if webhook_sent : bool then "FORWARDED" else "FAILED" in
  update_transfer request_id (set_status new_status new_transfer);;
  mret [("requestId", request_id);
        ("consentId", approved_consent_id);
        ("status", new_status);
        ("message", "Data request created and forwarded to HIP")].

(** [transfer.status not in ["REQUESTED", "FORWARDED", "PROCESSING"]] *)
Definition receivable (s : string) : bool :=
  String.eqb s "REQUESTED" || String.eqb s "FORWARDED" || String.eqb s "PROCESSING".

Definition receive_health_data_from_hip (request_id : string)
    (health_data : Codec.bundle) : M Dict :=
  d ← get_db;
  match data_transfers d !! request_id with
  | None => mret [("error", "Request not found"); ("status", "FAILED")]
  | Some transfer =>
      if negb (receivable (status transfer)) then
        mret [("error", "Invalid request status: " +:+ status transfer);
              ("status", "FAILED")]
      else
        encrypted ← encrypt health_data;
        t ← now;
        update_transfer request_id (set_ready encrypted t transfer);;
        mret [("requestId", request_id);
              ("status", "READY");
              ("message", "Health data received and ready for delivery")]
  end.

(** Columns [send_health_info] does not set take the table's defaults:
    no schedule, no expiry, no payload.  [txn_id] and [patient_id] are
    stored as given, without a lookup of the rows they name, so the commit
    fails with an [IntegrityError] when the database enforces a foreign
    key and the row is not there. *)
Definition send_health_info (txn_id patient_id hip_id care_context_id : string)
  : M Dict :=
  transfer_id ← new_uuid;
  let new_transfer :=
    mkTransfer txn_id patient_id hip_id "HIU" "DELIVERED" 1 None None None in
  refused ← dangling new_transfer;
  if refused : bool then raise (IntegrityError "data_transfers")
  else
    add_transfer transfer_id new_transfer;;
    mret [("status", "RECEIVED"); ("txnId", txn_id)].

Definition notify_data_flow (txn_id status' hip_id : string) : M Dict :=
  d ← get_db;
  match data_transfers d !! txn_id with
  | Some transfer =>
      update_transfer txn_id (set_status status' transfer);;
      mret [("status", status'); ("txnId", txn_id)]
  | None => mret [("status", "NOT_FOUND"); ("txnId", txn_id)]
  end.

(** *** consent_service.py *)

Definition init_consent (patient_abha_id hip_id : string) (purpose' : Dict)
  : M Dict :=
  _ensure_patient patient_abha_id;;
  consent_id ← new_uuid;
  let new_consent :=
    mkConsent patient_abha_id hip_id purpose' "APPROVED" in
  add_consent consent_id new_consent;;
  mret [("consentRequestId", consent_id); ("status", consent_status new_consent)].

Definition notify_consent (consent_id status' : string) : M Dict :=
  d ← get_db;
  match consent_requests d !! consent_id with
  | Some consent =>
      update_consent consent_id (set_consent_status status' consent);;
      mret [("consentRequestId", consent_id); ("status", status')]
  | None => mret [("consentRequestId", consent_id); ("status", "NOT_FOUND")]
  end.

(** *** The operations as one interface

    These are the calls that write the consent and transfer tables.  The
    queries ([get_data_request_status], [get_consent_status],
    [fetch_consent]) write nothing, and the linking service writes
    patients and its linking tables, never a consent or a transfer. *)

Inductive op :=
  | RequestHealthInfo (patient_abha_id hip_id hiu_id : string)
      (consent_id : option string) (care_context_ids data_types : list string)
  | ReceiveHealthData (request_id : string) (health_data : Codec.bundle)
  | SendHealthInfo (txn_id patient_id hip_id care_context_id : string)
  | NotifyDataFlow (txn_id status' hip_id : string)
  | InitConsent (patient_abha_id hip_id : string) (purpose' : Dict)
  | NotifyConsent (consent_id status' : string).

Definition run_op (o : op) : M Dict :=
  match o with
  | RequestHealthInfo p hip hiu c ccs dts => request_health_info p hip hiu c ccs dts
  | ReceiveHealthData r h => receive_health_data_from_hip r h
  | SendHealthInfo t p h c => send_health_info t p h c
  | NotifyDataFlow t s h => notify_data_flow t s h
  | InitConsent p h pu => init_consent p h pu
  | NotifyConsent c s => notify_consent c s
  end.

(** A sequence of calls; a call that raises leaves what it committed. *)
Fixpoint run_ops (e : Env) (os : list op) (w : World) : World :=
  match os with
  | [] => w
  | o :: os' => run_ops e os' (snd (run_op o e w))
  end.

(** *** Vocabulary of the specification *)

(** An error result is a returned dictionary with an ["error"] entry. *)
Definition is_error (r : result exn Dict) : Prop :=
  ∃ d msg, r = Return d ∧ dict_get "error" d = Some msg.

Definition terminal (s : string) : Prop := s = "DELIVERED" ∨ s = "EXPIRED".

(** The payload is stored exactly in the states READY and DELIVERED. *)
Definition payload_invariant (t : DataTransfer) : Prop :=
  is_Some (encrypted_data t) ↔ (status t = "READY" ∨ status t = "DELIVERED").

(** What [_ensure_consent_approved] leaves behind when it returns. *)
Definition consent_ensured (w : World) (a : string) (w' : World) : Prop :=
  (∃ c, consent_requests (db w') !! a = Some c ∧ consent_status c = "APPROVED")
  ∧ patients (db w') = patients (db w)
  ∧ data_transfers (db w') = data_transfers (db w)
  ∧ clock_reads w' = clock_reads w
  ∧ dispatched w' = dispatched w.

Definition nothing_done (w w' : World) : Prop :=
  db w' = db w ∧ dispatched w' = dispatched w.

(** What a returning [request_health_info] has done: [d] is the
    dictionary it returned, [w'] the state it left. *)
Definition request_done (patient_abha_id hip_id hiu_id : string)
    (consent_id : option string) (care_context_ids data_types : list string)
    (e : Env) (w : World) (d : Dict) (w' : World) : Prop :=
  ∃ request_id approved_consent_id snapshot,
    let webhook_sent := hip_webhook e (length (dispatched w)) in
    let new_status := if webhook_sent then "FORWARDED" else "FAILED" in
    let new_transfer :=
      mkTransfer approved_consent_id patient_abha_id hip_id
                 (str_or hiu_id "unknown-hiu") "REQUESTED" (length data_types)
                 (Some (utcnow e (clock_reads w)))
                 (Some (utcnow e (S (clock_reads w)) + timedelta_hours 24))
                 None in
    d = [("requestId", request_id);
         ("consentId", approved_consent_id);
         ("status", new_status);
         ("message", "Data request created and forwarded to HIP")]
    ∧ dispatched w' =
        dispatched w ++
          [(snapshot, mkHipDataRequest request_id hip_id hiu_id patient_abha_id
                        approved_consent_id care_context_ids data_types)]
    ∧ (∃ c, consent_requests snapshot !! approved_consent_id = Some c
            ∧ consent_status c = "APPROVED")
    ∧ (∀ c, consent_id = Some c → truthy c = true → approved_consent_id = c)
    ∧ data_transfers (db w) !! request_id = None
    ∧ data_transfers snapshot =
        <[request_id := new_transfer]> (data_transfers (db w))
    ∧ data_transfers (db w') =
        <[request_id := set_status new_status new_transfer]>
          (data_transfers (db w))
    ∧ consent_requests (db w') = consent_requests snapshot.

(** The two methods the source marks as legacy. *)
Definition legacy (o : op) : bool :=
  match o with
  | SendHealthInfo _ _ _ _ | NotifyDataFlow _ _ _ => true
  | _ => false
  end.

End Gateway.

(** ** The hospital: patient registration *)

Module Hospital.

(** Python truthiness of an [Optional[str]]. *)
Definition truthy_opt (o : option string) : bool :=
  match o with Some s => truthy s | None => false end.

(** [a or b] on [Optional[str]] values. *)
Definition opt_or (a b : option string) : option string :=
  if truthy_opt a then a else b.

(** SQL [column = value]: a NULL column equals nothing. *)
Definition col_eq (column : option string) (value : string) : bool :=
  match column with Some x => String.eqb x value | None => false end.

(** A row of the hospital's patient table (declared in
    [app/database/models.py], which is not among the sources), with the
    columns the route reads and writes; rows are stored under their
    primary key [id]. *)
Record Patient := mkPatient {
  name : string;
  mobile : option string;
  abha_id : option string;
  abha_address : option string;
  gateway_patient_id : option string;
  aadhaar : option string;
  gender : option string;
  date_of_birth : option datetime
}.

Definition set_abha_id (v : option string) (p : Patient) : Patient :=
  mkPatient (name p) (mobile p) v (abha_address p) (gateway_patient_id p)
            (aadhaar p) (gender p) (date_of_birth p).
Definition set_abha_address (v : option string) (p : Patient) : Patient :=
  mkPatient (name p) (mobile p) (abha_id p) v (gateway_patient_id p)
            (aadhaar p) (gender p) (date_of_birth p).
Definition set_gender (v : option string) (p : Patient) : Patient :=
  mkPatient (name p) (mobile p) (abha_id p) (abha_address p)
            (gateway_patient_id p) (aadhaar p) v (date_of_birth p).
Definition set_date_of_birth (v : option datetime) (p : Patient) : Patient :=
  mkPatient (name p) (mobile p) (abha_id p) (abha_address p)
            (gateway_patient_id p) (aadhaar p) (gender p) v.

(** [PatientRegistrationRequest] *)
Record PatientRegistrationRequest := mkRequest {
  req_name : string;
  req_mobile : string;
  abhaId : option string;
  abhaAddress : option string;
  req_aadhaar : option string;
  req_gender : option string;
  dateOfBirth : option string
}.

(** The dictionaries the route returns; a key a branch does not write is
    [None], as is a null value. *)
Record PatientDict := mkPatientDict {
  patientId : string;
  d_name : string;
  d_mobile : option string;
  d_abhaId : option string;
  d_abhaAddress : option string;
  d_gatewayPatientId : option string;
  d_aadhaar : option string;
  d_gender : option string;
  d_dateOfBirth : option string;
  message : option string
}.

Definition set_message (m : string) (d : PatientDict) : PatientDict :=
  mkPatientDict (patientId d) (d_name d) (d_mobile d) (d_abhaId d)
                (d_abhaAddress d) (d_gatewayPatientId d) (d_aadhaar d)
                (d_gender d) (d_dateOfBirth d) (Some m).

(** What the gateway's discover endpoint is asked and what it answers. *)
Record GatewayPayload := mkGatewayPayload {
  gp_mobile : string;
  gp_name : string;
  gp_gender : option string;
  gp_dateOfBirth : option string;
  gp_aadhaar : option string
}.

Record GatewayResult := mkGatewayResult {
  g_patientId : option string;
  g_abhaId : option string;
  g_abhaAddress : option string;
  g_gender : option string;
  g_dateOfBirth : option string
}.

Record World := mkWorld {
  patients : gmap string Patient;
  uuid_calls : nat
}.

(** The collaborators of the route that are not among the sources.
    [discover_patient] answers with a dictionary or fails ([None]: it
    raised, or gave no dictionary); [integrity_error] is the database's
    verdict on an insert, the text of [e.orig] when a constraint is
    violated; the three date functions are Python's, [None] standing for
    [ValueError]. *)
Record Env := mkEnv {
  uuid4 : nat → string;
  discover_patient : GatewayPayload → option GatewayResult;
  integrity_error : gmap string Patient → Patient → option string;
  fromisoformat : string → option datetime;
  strptime_ymd : string → option datetime;
  isoformat : datetime → string
}.

Inductive exn :=
  | MultipleResultsFound
  | HTTPException (status_code : nat) (detail : string).

Abbreviation M := (Eff Env World exn).

Definition get_patients : M (gmap string Patient) :=
  λ _ w, (Return (patients w), w).
Definition put_patients (m : gmap string Patient) : M unit :=
  λ _ w, (Return tt, mkWorld m (uuid_calls w)).
Definition new_uuid : M string := λ e w,
  (Return (uuid4 e (uuid_calls w)), mkWorld (patients w) (S (uuid_calls w))).
Definition ask : M Env := λ e w, (Return e, w).

(** [db.execute(select(Patient).where(cond)).scalar_one_or_none()] *)
Definition select_where (cond : Patient → bool) (tbl : gmap string Patient)
  : list (string * Patient) :=
  List.filter (λ row, cond (snd row)) (map_to_list tbl).

Definition scalar_one_or_none (cond : Patient → bool)
  : M (option (string * Patient)) :=
  tbl ← get_patients;
  match select_where cond tbl with
  | [] => mret None
  | [row] => mret (Some row)
  | _ => raise MultipleResultsFound
  end.

(** [x.isoformat() if x else None] *)
Definition iso (f : datetime → string) (x : option datetime) : option string :=
  f <$> x.

Definition find_patient_by_mobile (mobile' : string) : M (option PatientDict) :=
  e ← ask;
  row ← scalar_one_or_none (λ p, col_eq (mobile p) mobile');
  match row with
  | Some (id, result) =>
      mret (Some (mkPatientDict id (name result) (mobile result)
                    (abha_id result) None (gateway_patient_id result)
                    (aadhaar result) (gender result)
                    (iso (isoformat e) (date_of_birth result)) None))
  | None => mret None
  end.

(** ["needle" in haystack] *)
Definition contains (needle haystack : string) : bool :=
  match String.index 0 needle haystack with Some _ => true | None => false end.

Definition lower_ascii (c : ascii) : ascii :=
  let n := nat_of_ascii c in
  if (65 <=? n)%nat && (n <=? 90)%nat then ascii_of_nat (n + 32) else c.

Fixpoint lower (s : string) : string :=
  match s with
  | EmptyString => EmptyString
  | String c s' => String (lower_ascii c) (lower s')
  end.

(** [dob_str.replace("Z", "+00:00")] *)
Fixpoint replace_Z (s : string) : string :=
  match s with
  | EmptyString => EmptyString
  | String c s' =>
      if Ascii.eqb c "Z" then "+00:00" +:+ replace_Z s'
      else String c (replace_Z s')
  end.

(** [value if value else None] *)
Definition none_if_falsy (o : option string) : option string :=
  if truthy_opt o then o else None.

Definition create_new_patient (patient_data : PatientRegistrationRequest)
    (gateway_patient_id' : option string) : M PatientDict :=
  e ← ask;
  let gender' := none_if_falsy (req_gender patient_data) in
  let dob_str := none_if_falsy (dateOfBirth patient_data) in
  let date_of_birth' :=
    match dob_str with
    | Some s => if contains "T" s then fromisoformat e (replace_Z s)
                else strptime_ymd e s
    | None => None
    end in
  let new_patient :=
    mkPatient (req_name patient_data) (Some (req_mobile patient_data))
              (abhaId patient_data) (abhaAddress patient_data)
              gateway_patient_id' (req_aadhaar patient_data) gender'
              date_of_birth' in
  id ← new_uuid;
  tbl ← get_patients;
  match integrity_error e tbl new_patient with
  | Some error_msg =>
      if contains "aadhaar" (lower error_msg) then
        raise (HTTPException 400
                 "A patient with this Aadhaar number already exists")
      else if contains "abha_id" (lower error_msg) then
        raise (HTTPException 400 "A patient with this ABHA ID already exists")
      else if contains "mobile" (lower error_msg) then
        raise (HTTPException 400
                 "A patient with this mobile number already exists")
      else
        raise (HTTPException 400 "A patient with these details already exists")
  | None =>
      match tbl !! id with
      | Some _ =>
          raise (HTTPException 400
                   "A patient with these details already exists")
      | None =>
          put_patients (<[id := new_patient]> tbl);;
          mret (mkPatientDict id (name new_patient) (mobile new_patient)
                  (abha_id new_patient) (abha_address new_patient)
                  (gateway_patient_id new_patient) (aadhaar new_patient)
                  (gender new_patient)
                  (iso (isoformat e) (date_of_birth new_patient)) None)
      end
  end.

(** The dictionary of the two early returns that carry a message. *)
Definition existing_dict (e : Env) (id : string) (p : Patient) (msg : string)
  : PatientDict :=
  mkPatientDict id (name p) (mobile p) (abha_id p) None (gateway_patient_id p)
                (aadhaar p) (gender p) (iso (isoformat e) (date_of_birth p))
                (Some msg).

(** The tail of [register_patient]: no existing patient was found. *)
Definition register_new (request : PatientRegistrationRequest) : M PatientDict :=
  e ← ask;
  let gateway_payload :=
    mkGatewayPayload (req_mobile request) (req_name request)
                     (none_if_falsy (req_gender request))
                     (none_if_falsy (dateOfBirth request))
                     (none_if_falsy (req_aadhaar request)) in
  let gateway_result := discover_patient e gateway_payload in
  let gateway_patient_id' := gateway_result ≫= g_patientId in
  let gateway_abha_id :=
    match gateway_result with
    | Some g => opt_or (g_abhaId g) (abhaId request)
    | None => None
    end in
  let gateway_abha_address := gateway_result ≫= g_abhaAddress in
  let gateway_gender := gateway_result ≫= g_gender in
  let gateway_dob := gateway_result ≫= g_dateOfBirth in
  let patient_data :=
    mkRequest (req_name request) (req_mobile request)
      (if truthy_opt gateway_abha_id then gateway_abha_id else abhaId request)
      (if truthy_opt gateway_abha_address then gateway_abha_address
       else abhaAddress request)
      (req_aadhaar request)
      (if truthy_opt gateway_gender then gateway_gender else req_gender request)
      (if truthy_opt gateway_dob then gateway_dob else dateOfBirth request) in
  new_patient ← create_new_patient patient_data gateway_patient_id';
  tbl ← get_patients;
  let id := patientId new_patient in
  new_patient ←
    match tbl !! id with
    | Some patient_obj =>
        let '(obj, dict) :=
          if truthy_opt gateway_abha_id && negb (truthy_opt (abha_id patient_obj))
          then (set_abha_id gateway_abha_id patient_obj,
                mkPatientDict (patientId new_patient) (d_name new_patient)
                  (d_mobile new_patient) gateway_abha_id
                  (d_abhaAddress new_patient) (d_gatewayPatientId new_patient)
                  (d_aadhaar new_patient) (d_gender new_patient)
                  (d_dateOfBirth new_patient) (message new_patient))
          else (patient_obj, new_patient) in
        let '(obj, dict) :=
          if truthy_opt gateway_abha_address
             && negb (truthy_opt (abha_address obj))
          then (set_abha_address gateway_abha_address obj,
                mkPatientDict (patientId dict) (d_name dict) (d_mobile dict)
                  (d_abhaId dict) gateway_abha_address
                  (d_gatewayPatientId dict) (d_aadhaar dict) (d_gender dict)
                  (d_dateOfBirth dict) (message dict))
          else (obj, dict) in
        let '(obj, dict) :=
          if truthy_opt gateway_gender && negb (truthy_opt (gender obj))
          then (set_gender gateway_gender obj,
                mkPatientDict (patientId dict) (d_name dict) (d_mobile dict)
                  (d_abhaId dict) (d_abhaAddress dict)
                  (d_gatewayPatientId dict) (d_aadhaar dict) gateway_gender
                  (d_dateOfBirth dict) (message dict))
          else (obj, dict) in
        let '(obj, dict) :=
          match gateway_dob, date_of_birth obj with
          | Some dob, None =>
              if truthy dob then
                match fromisoformat e dob with
                | Some parsed =>
                    (set_date_of_birth (Some parsed) obj,
                     mkPatientDict (patientId dict) (d_name dict)
                       (d_mobile dict) (d_abhaId dict) (d_abhaAddress dict)
                       (d_gatewayPatientId dict) (d_aadhaar dict)
                       (d_gender dict) (Some dob) (message dict))
                | None => (obj, dict)
                end
              else (obj, dict)
          | _, _ => (obj, dict)
          end in
        put_patients (<[id := obj]> tbl);;
        mret dict
    | None => mret new_patient
    end;
  mret (set_message
          ("Patient registered successfully" +:+
           (if truthy_opt gateway_patient_id' then " and synced with gateway"
            else EmptyString))
          new_patient).

Definition register_patient (request : PatientRegistrationRequest)
  : M PatientDict :=
  e ← ask;
  existing_by_abha ←
    (if truthy_opt (abhaId request)
     then scalar_one_or_none (λ p, col_eq (abha_id p) (default EmptyString (abhaId request)))
     else mret None);
  match existing_by_abha with
  | Some (id, p) =>
      mret (existing_dict e id p "Patient already registered with this ABHA ID")
  | None =>
      existing_by_aadhaar ←
        (if truthy_opt (req_aadhaar request)
         then scalar_one_or_none
                (λ p, col_eq (aadhaar p) (default EmptyString (req_aadhaar request)))
         else mret None);
      match existing_by_aadhaar with
      | Some (id, p) =>
          p ← (if truthy_opt (abhaId request) && negb (truthy_opt (abha_id p))
               then
                 let p' := set_abha_id (abhaId request) p in
                 tbl ← get_patients;
                 put_patients (<[id := p']> tbl);;
                 mret p'
               else mret p);
          mret (existing_dict e id p
                  "Patient already registered with this Aadhaar number")
      | None =>
          existing_patient ← find_patient_by_mobile (req_mobile request);
          match existing_patient with
          | Some d => mret d
          | None => register_new request
          end
      end
  end.

(** *** Vocabulary of the specification *)

(** [d] carries the data of row [p] stored under [id]. *)
Definition describes (e : Env) (id : string) (p : Patient) (d : PatientDict)
  : Prop :=
  patientId d = id
  ∧ d_name d = name p
  ∧ d_mobile d = mobile p
  ∧ d_abhaId d = abha_id p
  ∧ d_gatewayPatientId d = gateway_patient_id p
  ∧ d_aadhaar d = aadhaar p
  ∧ d_gender d = gender p
  ∧ d_dateOfBirth d = iso (isoformat e) (date_of_birth p).

(** Row [id] is the one patient with the request's mobile number, and the
    request's ABHA id and Aadhaar number, where it carries them, match no
    other row. *)
Definition known_by_mobile (request : PatientRegistrationRequest)
    (tbl : gmap string Patient) (id : string) (p : Patient) : Prop :=
  tbl !! id = Some p
  ∧ mobile p = Some (req_mobile request)
  ∧ (∀ id' p', tbl !! id' = Some p' →
       mobile p' = Some (req_mobile request) → id' = id)
  ∧ (∀ id' p' a, tbl !! id' = Some p' →
       abhaId request = Some a → truthy a = true → abha_id p' = Some a →
       id' = id)
  ∧ (∀ id' p' n, tbl !! id' = Some p' →
       req_aadhaar request = Some n → truthy n = true → aadhaar p' = Some n →
       id' = id).

End Hospital.

(** ** Concrete scenarios *)

Module Scenario.
Import Gateway.

Definition sample_bundle : Codec.bundle :=
  [Codec.HealthRecord Codec.Prescription
     [("date", "2026-01-15"); ("careContextId", "cc-001")]].

Definition system_key : list ascii := String.list_ascii_of_string "s3cret".

(** A clock that advances one microsecond per reading, three uuids, a
    webhook peer that answers every call, a database that enforces both
    foreign keys. *)
Definition sample_env : Env :=
  mkEnv (λ k, 1767225600000000 + Z.of_nat k)
        (λ k, match k with O => "0a" | S O => "1b" | _ => "2c" end)
        (λ _, true)
        (Codec.encrypt system_key)
        true true.

(** The same world with a peer that never answers. *)
Definition offline_env : Env :=
  mkEnv (utcnow sample_env) (uuid4 sample_env) (λ _, false)
        (encrypt_dict sample_env) (patient_fk sample_env)
        (consent_fk sample_env).

Definition sample_consent (s : string) : ConsentRequest :=
  mkConsent "p1" "hip1" [("text", "Treatment")] s.

Definition sample_transfer (s : string) (payload : option Codec.blob)
  : DataTransfer :=
  mkTransfer "c1" "p1" "hip1" "hiu1" s 1 (Some 1767225600000000)
             (Some 1767312000000000) payload.

(** One patient, one consent in state [consent], no transfer yet. *)
Definition world_with_consent (consent : string) : World :=
  mkWorld (mkDB {["p1" := mkPatient "Patient p1"]}
                {["c1" := sample_consent consent]} ∅) 0 0 [].

(** One patient, an approved consent, one transfer ["req-1"] in state
    [s]. *)
Definition world_with_transfer (s : string) (payload : option Codec.blob)
  : World :=
  mkWorld (mkDB {["p1" := mkPatient "Patient p1"]}
                {["c1" := sample_consent "APPROVED"]}
                {["req-1" := sample_transfer s payload]}) 0 0 [].

End Scenario.

Module HospitalScenario.
Import Hospital.

(** A gateway that is down, a database without further constraints. *)
Definition sample_env : Env :=
  mkEnv (λ _, "33") (λ _, None) (λ _ _, None) (λ _, None) (λ _, None)
        (λ _, "1990-01-01T00:00:00").

Definition asha : Patient :=
  mkPatient "Asha" (Some "9000000001") None None None (Some "123412341234")
            (Some "Female") None.

Definition ravi : Patient :=
  mkPatient "Ravi" (Some "9000000002") (Some "ravi@abdm") None None None
            (Some "Male") (Some 631152000000000).

Definition sample_world : World :=
  mkWorld (<["11" := asha]> {["22" := ravi]}) 0.

(** Asha registers again, now with an ABHA id. *)
Definition asha_again : PatientRegistrationRequest :=
  mkRequest "Asha K" "9000000001" (Some "asha@abdm") None (Some "123412341234")
            None None.

(** Somebody new. *)
Definition meera : PatientRegistrationRequest :=
  mkRequest "Meera" "9000000003" None None None (Some "Female")
            (Some "1985-05-05").

(** A gateway that knows Meera under Ravi's ABHA id, and a database that
    keeps ABHA ids unique. *)
Definition strict_env : Env :=
  mkEnv (uuid4 sample_env)
        (λ _, Some (mkGatewayResult (Some "gw-7") (Some "ravi@abdm") None None
                      None))
        (λ tbl p,
           if decide (Exists (λ row, abha_id (snd row) = abha_id p
                                     ∧ is_Some (abha_id p))
                        (map_to_list tbl))
           then Some "UNIQUE constraint failed: patients.ABHA_ID"
           else None)
        (fromisoformat sample_env) (strptime_ymd sample_env)
        (isoformat sample_env).

End HospitalScenario.

(** ** The gateway's queries and the vocabulary of its invariants *)

Module GatewayQueries.
Import Gateway.

(** *** consent_service.py: fetch_consent *)

Record ConsentArtefact := mkConsentArtefact {
  ca_consentRequestId : string;
  ca_status : string;
  consentArtefact : Dict
}.

Definition fetch_consent (consent_id : string) : M (option ConsentArtefact) :=
  d ← get_db;
  match consent_requests d !! consent_id with
  | Some consent =>
      mret (Some (mkConsentArtefact consent_id (consent_status consent)
                    [("data", "encrypted-consent-artefact")]))
  | None => mret None
  end.

(** *** consent_service.py: get_consent_status

    No service writes the [created_at] column of a consent; it is read
    from [consent_created_at], given per consent id. *)
Record ConsentStatus := mkConsentStatus {
  cs_consentRequestId : string;
  cs_status : string;
  cs_createdAt : option string
}.

Definition get_consent_status (consent_created_at : string → option datetime)
    (isoformat : datetime → string) (consent_id : string)
  : M (option ConsentStatus) :=
  d ← get_db;
  match consent_requests d !! consent_id with
  | Some consent =>
      mret (Some (mkConsentStatus consent_id (consent_status consent)
                    (isoformat <$> consent_created_at consent_id)))
  | None => mret None
  end.

(** *** data_service.py: get_data_request_status

    The columns of a transfer that none of the services above writes (the
    retry counters and the row's own timestamps) are read from
    [Bookkeeping], given per transfer id. *)
Record Bookkeeping := mkBookkeeping {
  created_at : option datetime;
  updated_at : option datetime;
  retry_count : Z;
  max_retries : Z;
  webhook_attempts : Z;
  last_webhook_error : option string
}.

Record RetryInfo := mkRetryInfo {
  retryCount : Z;
  maxRetries : Z;
  webhookAttempts : Z;
  lastError : option string
}.

(** The status dictionary; [retry] and [expiresAt] are [None] when the
    source does not write the key. *)
Record StatusInfo := mkStatusInfo {
  si_requestId : string;
  si_status : string;
  si_patientId : string;
  fromEntity : string;
  toEntity : string;
  dataCount : nat;
  createdAt : option string;
  updatedAt : option string;
  retry : option RetryInfo;
  expiresAt : option (option string);
  dataStored : bool
}.

(** Python truthiness of the stored payload: absent and empty are falsy. *)
Definition stored (payload : option Codec.blob) : bool :=
  match payload with
  | Some (_ :: _) => true
  | _ => false
  end.

Definition get_data_request_status (columns : string → Bookkeeping)
    (isoformat : datetime → string) (request_id : string)
  : M (option StatusInfo) :=
  d ← get_db;
  match data_transfers d !! request_id with
  | Some transfer =>
      let b := columns request_id in
      let retry_info :=
        if String.eqb (status transfer) "READY"
           || String.eqb (status transfer) "FAILED"
        then Some (mkRetryInfo (retry_count b) (max_retries b)
                     (webhook_attempts b) (last_webhook_error b))
        else None in
      let expiry :=
        if stored (encrypted_data transfer)
        then Some (isoformat <$> expires_at transfer)
        else None in
      mret (Some (mkStatusInfo request_id (status transfer)
                    (patient_abha_id transfer) (from_entity transfer)
                    (to_entity transfer) (data_count transfer)
                    (isoformat <$> created_at b) (isoformat <$> updated_at b)
                    retry_info expiry (stored (encrypted_data transfer))))
  | None => mret None
  end.

(** *** Vocabulary *)

(** The consent [_ensure_consent_approved] writes when it finds none. *)
Definition auto_consent (patient_abha_id hip_id : string) : ConsentRequest :=
  mkConsent patient_abha_id hip_id
            [("text", "Auto-approved for data transfer")] "APPROVED".

(** [consent_id] is usable as it comes: present and not empty. *)
Definition usable (consent_id : option string) : bool :=
  match consent_id with Some c => truthy c | None => false end.

(** The identifiers a [request_health_info] call starting in [w] draws. *)
Definition drawn_consent_id (e : Env) (w : World) : string :=
  "consent-" +:+ uuid4 e (uuid_calls w).

Definition drawn_request_id (e : Env) (w : World) (consent_id : option string)
  : string :=
  "req-" +:+ uuid4 e (if usable consent_id then uuid_calls w
                      else S (uuid_calls w)).

(** The columns of a consent and of a transfer that say what it is about. *)
Definition same_consent_subject (c c' : ConsentRequest) : Prop :=
  consent_patient_abha_id c' = consent_patient_abha_id c
  ∧ consent_hip_id c' = consent_hip_id c
  ∧ purpose c' = purpose c.

Definition same_transfer_subject (t t' : DataTransfer) : Prop :=
  transfer_consent_request_id t' = transfer_consent_request_id t
  ∧ patient_abha_id t' = patient_abha_id t
  ∧ from_entity t' = from_entity t
  ∧ to_entity t' = to_entity t
  ∧ data_count t' = data_count t
  ∧ expires_at t' = expires_at t.

(** From [w] to [w'] no row was deleted, no patient row changed, no
    consent or transfer changed what it is about, the webhook log was
    only extended, and no counter went back. *)
Definition evolves (w w' : World) : Prop :=
  (∀ k p, patients (db w) !! k = Some p → patients (db w') !! k = Some p)
  ∧ (∀ k c, consent_requests (db w) !! k = Some c →
       ∃ c', consent_requests (db w') !! k = Some c' ∧ same_consent_subject c c')
  ∧ (∀ k t, data_transfers (db w) !! k = Some t →
       ∃ t', data_transfers (db w') !! k = Some t' ∧ same_transfer_subject t t')
  ∧ dispatched w `prefix_of` dispatched w'
  ∧ (clock_reads w ≤ clock_reads w')%nat
  ∧ (uuid_calls w ≤ uuid_calls w')%nat.

(** The call after its two preparing steps: [w2] is the state they leave,
    [a] the consent id they settle on. *)
Definition request_tail (patient_abha_id hip_id hiu_id : string)
    (care_context_ids data_types : list string) (e : Env)
    (a : string) (w2 : World) : result exn Dict * World :=
  let request_id := "req-" +:+ uuid4 e (uuid_calls w2) in
  let new_transfer :=
    mkTransfer a patient_abha_id hip_id (str_or hiu_id "unknown-hiu")
               "REQUESTED" (length data_types)
               (Some (utcnow e (clock_reads w2)))
               (Some (utcnow e (S (clock_reads w2)) + timedelta_hours 24))
               None in
  match data_transfers (db w2) !! request_id with
  | Some _ =>
      (Raise (IntegrityError "data_transfers"),
       mkWorld (db w2) (S (S (clock_reads w2))) (S (uuid_calls w2))
               (dispatched w2))
  | None =>
      let new_status :=
        if hip_webhook e (length (dispatched w2)) then "FORWARDED"
        else "FAILED" in
      (Return [("requestId", request_id); ("consentId", a);
               ("status", new_status);
               ("message", "Data request created and forwarded to HIP")],
       mkWorld
         (set_data_transfers
            (<[request_id := set_status new_status new_transfer]>
               (data_transfers (db w2))) (db w2))
         (S (S (clock_reads w2))) (S (uuid_calls w2))
         (dispatched w2 ++
            [(set_data_transfers
                (<[request_id := new_transfer]> (data_transfers (db w2)))
                (db w2),
              mkHipDataRequest request_id hip_id hiu_id patient_abha_id a
                               care_context_ids data_types)]))
  end.

(** The ids a [request_health_info] call starting in [w] draws are free. *)
Definition ids_free (e : Env) (w : World) (consent_id : option string) : Prop :=
  (usable consent_id = false →
     consent_requests (db w) !! drawn_consent_id e w = None)
  ∧ data_transfers (db w) !! drawn_request_id e w consent_id = None.

(** How many [request_health_info] calls of the sequence return. *)
Fixpoint returned_requests (e : Env) (os : list op) (w : World) : nat :=
  match os with
  | [] => O
  | o :: os' =>
      (match o, fst (run_op o e w) with
       | RequestHealthInfo _ _ _ _ _ _, Return _ => 1
       | _, _ => 0
       end + returned_requests e os' (snd (run_op o e w)))%nat
  end.

(** The sequence holds no [send_health_info] call. *)
Definition no_legacy_insert (os : list op) : Prop :=
  ∀ txn_id patient_id hip_id care_context_id,
    SendHealthInfo txn_id patient_id hip_id care_context_id ∉ os.

(** Every reference of a [send_health_info] call that the database
    enforces names a row. *)
Definition references_accepted (e : Env) (d : DB) (patient_id txn_id : string)
  : Prop :=
  (patient_fk e = true → is_Some (patients d !! patient_id))
  ∧ (consent_fk e = true → is_Some (consent_requests d !! txn_id)).

(** Every transfer refers to a patient and a consent that exist. *)
Definition references_resolve (d : DB) : Prop :=
  ∀ k t, data_transfers d !! k = Some t →
    is_Some (patients d !! patient_abha_id t)
    ∧ is_Some (consent_requests d !! transfer_consent_request_id t).

End GatewayQueries.

(** ** The hospital's patient list and the vocabulary of registration *)

Module HospitalQueries.
Import Hospital.

(** The dictionary [list_patients] builds for one row. *)
Definition row_dict (e : Env) (row : string * Patient) : PatientDict :=
  let '(id, patient) := row in
  mkPatientDict id (name patient) (mobile patient) (abha_id patient)
                (abha_address patient) (gateway_patient_id patient)
                (aadhaar patient) (gender patient)
                (iso (isoformat e) (date_of_birth patient)) None.

(** [db.execute(select(Patient)).scalars().all()], in the order the
    database gives the rows. *)
Definition list_patients : M (list PatientDict) :=
  e ← ask;
  tbl ← get_patients;
  mret (row_dict e <$> map_to_list tbl).

(** No row carries [value] in [column]; nothing is asked of an absent or
    empty value. *)
Definition no_match (column : Patient → option string) (value : option string)
    (tbl : gmap string Patient) : Prop :=
  ∀ a, value = Some a → truthy a = true →
    ∀ id p, tbl !! id = Some p → column p ≠ Some a.

(** How [create_new_patient] reads a date string: with a ["T"] in it as
    an ISO datetime, otherwise as a date. *)
Definition read_date (e : Env) (s : string) : option datetime :=
  if contains "T" s then fromisoformat e (replace_Z s) else strptime_ymd e s.


(** The response [d] and the row [p] under [id] say the same about who the
    patient is. *)
Definition agrees (id : string) (p : Patient) (d : PatientDict) : Prop :=
  patientId d = id
  ∧ d_name d = name p
  ∧ d_mobile d = mobile p
  ∧ d_abhaId d = abha_id p
  ∧ d_gatewayPatientId d = gateway_patient_id p
  ∧ d_aadhaar d = aadhaar p
  ∧ d_gender d = gender p.

End HospitalQueries.

(** ** A calendar for the runs at the end

    Dates as the registration runs read and print them: zero-padded
    Gregorian dates and times, as microseconds since 1970-01-01. *)

Module Calendar.

Definition digit (c : ascii) : option Z :=
  let n := Z.of_nat (nat_of_ascii c) in
  if (48 <=? n) && (n <=? 57) then Some (n - 48) else None.

(** A string of decimal digits, read from the left onto [acc]. *)
Fixpoint digits (acc : Z) (s : string) : option Z :=
  match s with
  | EmptyString => Some acc
  | String c s' =>
      match digit c with
      | Some d => digits (10 * acc + d) s'
      | None => None
      end
  end.

(** A field of exactly [n] digits starting at position [i]. *)
Definition field (i n : nat) (s : string) : option Z :=
  let f := String.substring i n s in
  if (String.length f =? n)%nat then digits 0 f else None.

Definition leap (y : Z) : bool :=
  (y mod 4 =? 0) && (negb (y mod 100 =? 0) || (y mod 400 =? 0)).

Definition days_in_month (y m : Z) : Z :=
  if m =? 2 then (if leap y then 29 else 28)
  else if (m =? 4) || (m =? 6) || (m =? 9) || (m =? 11) then 30
  else 31.

(** Days from 1970-01-01 to the given day of the proleptic Gregorian
    calendar. *)
Definition days_from_civil (y m d : Z) : Z :=
  let y' := if m <=? 2 then y - 1 else y in
  let era := y' / 400 in
  let yoe := y' - era * 400 in
  let mp := (m + 9) mod 12 in
  let doy := (153 * mp + 2) / 5 + d - 1 in
  let doe := yoe * 365 + yoe / 4 - yoe / 100 + doy in
  era * 146097 + doe - 719468.

Definition day_us : Z := 86400 * 1000000.

(** [YYYY-MM-DD] at the start of [s], as midnight of that day. *)
Definition date_part (s : string) : option datetime :=
  match field 0 4 s, String.get 4 s, field 5 2 s, String.get 7 s, field 8 2 s with
  | Some y, Some "-"%char, Some m, Some "-"%char, Some d =>
      if (1 <=? y) && (1 <=? m) && (m <=? 12) && (1 <=? d)
         && (d <=? days_in_month y m)
      then Some (days_from_civil y m d * day_us)
      else None
  | _, _, _, _, _ => None
  end.

(** [HH:MM:SS] at position [i] of [s], in microseconds. *)
Definition time_part (i : nat) (s : string) : option Z :=
  match field i 2 s, String.get (i + 2) s, field (i + 3) 2 s,
        String.get (i + 5) s, field (i + 6) 2 s with
  | Some h, Some ":"%char, Some m, Some ":"%char, Some sec =>
      if (h <=? 23) && (m <=? 59) && (sec <=? 59)
      then Some (((h * 60 + m) * 60 + sec) * 1000000)
      else None
  | _, _, _, _, _ => None
  end.

(** [datetime.strptime(s, "%Y-%m-%d")] on zero-padded dates. *)
Definition strptime_ymd (s : string) : option datetime :=
  if (String.length s =? 10)%nat then date_part s else None.

(** [datetime.fromisoformat(s)] on [YYYY-MM-DD] and
    [YYYY-MM-DDTHH:MM:SS], the latter also with the offset [+00:00]. *)
Definition fromisoformat (s : string) : option datetime :=
  let n := String.length s in
  if (n =? 10)%nat then date_part s
  else if ((n =? 19)%nat
           || ((n =? 25)%nat && String.eqb (String.substring 19 6 s) "+00:00"))
          && bool_decide (String.get 10 s = Some "T"%char)
  then
    match date_part s, time_part 11 s with
    | Some d, Some t => Some (d + t)
    | _, _ => None
    end
  else None.

Definition digit_char (d : Z) : ascii := ascii_of_nat (Z.to_nat (48 + d mod 10)).

(** [n] as [k] decimal digits, zero-padded. *)
Fixpoint padded (k : nat) (n : Z) (rest : string) : string :=
  match k with
  | O => rest
  | S k' => padded k' (n / 10) (String (digit_char n) rest)
  end.

(** [dt.isoformat()] *)
Definition isoformat (t : datetime) : string :=
  let days := t / day_us in
  let us := t mod day_us in
  let z := days + 719468 in
  let era := z / 146097 in
  let doe := z - era * 146097 in
  let yoe := (doe - doe / 1460 + doe / 36524 - doe / 146096) / 365 in
  let doy := doe - (365 * yoe + yoe / 4 - yoe / 100) in
  let mp := (5 * doy + 2) / 153 in
  let d := doy - (153 * mp + 2) / 5 + 1 in
  let m := if mp <? 10 then mp + 3 else mp - 9 in
  let y := yoe + era * 400 + (if m <=? 2 then 1 else 0) in
  let secs := us / 1000000 in
  let frac := us mod 1000000 in
  padded 4 y
    (String "-" (padded 2 m
    (String "-" (padded 2 d
    (String "T" (padded 2 (secs / 3600)
    (String ":" (padded 2 (secs / 60 mod 60)
    (String ":" (padded 2 (secs mod 60)
    (if frac =? 0 then EmptyString
     else String "." (padded 6 frac EmptyString)))))))))))).

End Calendar.

(** ** Further cases for the runs at the end *)

Module GatewayCases.
Import Gateway GatewayQueries Scenario.

(** The bookkeeping columns of a transfer that was never retried. *)
Definition fresh_columns (request_id : string) : Bookkeeping :=
  mkBookkeeping (Some 1767225600000000) None 0 3 0 None.

Definition sample_isoformat (t : datetime) : string := "2026-01-01T00:00:00".

(** A consent for a second patient, a request on it without a consent id,
    the data source's answer to the first transfer, and two notifications. *)
Definition sample_calls : list op :=
  [InitConsent "p2" "hip1" [("text", "Treatment")];
   RequestHealthInfo "p2" "hip1" "hiu1" None ["cc-001"] ["PRESCRIPTION"];
   ReceiveHealthData "req-1" sample_bundle;
   NotifyDataFlow "req-1" "DELIVERED" "hip1";
   NotifyConsent "c1" "REVOKED"].


(** The same world on a database that enforces no foreign key. *)
Definition lenient_env : Env :=
  mkEnv (utcnow sample_env) (uuid4 sample_env) (hip_webhook sample_env)
        (encrypt_dict sample_env) false false.

(** What [request_health_info] answers in the runs below. *)
Definition sample_answer (request_id consent_id status : string) : Dict :=
  [("requestId", request_id); ("consentId", consent_id); ("status", status);
   ("message", "Data request created and forwarded to HIP")].

End GatewayCases.

Module HospitalCases.
Import Hospital HospitalScenario.

(** Kiran shares Asha's telephone. *)
Definition kiran : Patient :=
  mkPatient "Kiran" (Some "9000000001") None None None None (Some "Male") None.

Definition family_world : World :=
  mkWorld (<["11" := asha]> {["44" := kiran]}) 0.

(** A request that gives the shared number only. *)
Definition walk_in : PatientRegistrationRequest :=
  mkRequest "Asha" "9000000001" None None None None None.

(** Ravi's ABHA id with Asha's Aadhaar number and mobile number. *)
Definition ravi_again : PatientRegistrationRequest :=
  mkRequest "Ravi K" "9000000001" (Some "ravi@abdm") None
            (Some "123412341234") None None.



(** A gateway that is down and a database without further constraints,
    with the calendar's dates. *)
Definition calendar_env : Env :=
  mkEnv (uuid4 sample_env) (discover_patient sample_env)
        (integrity_error sample_env)
        Calendar.fromisoformat Calendar.strptime_ymd Calendar.isoformat.


End HospitalCases.

(** * Properties of the payload codec *)

Section CodecFacts.
Import Codec.

(** Each reader undoes its writer and hands on what follows. *)

Lemma get_uint_put d rest :
  get_uint (put_uint d ++ ":"%char :: rest) = Some (d, rest).
Proof.
  induction d as [|d IH|d IH|d IH|d IH|d IH|d IH|d IH|d IH|d IH|d IH];
    [done|..]; cbn [put_uint app get_uint]; rewrite IH; reflexivity.
Qed.

Lemma get_nat_put n rest : get_nat (put_nat n ++ rest) = Some (n, rest).
Proof.
  unfold get_nat, put_nat. rewrite <- app_assoc. cbn [app].
  rewrite get_uint_put. cbn.
  by rewrite DecimalNat.Unsigned.of_to.
Qed.

Lemma length_list_ascii_of_string s :
  length (String.list_ascii_of_string s) = String.length s.
Proof. induction s as [|c s IH]; cbn; congruence. Qed.

Lemma get_string_put s rest :
  get_string (put_string s ++ rest) = Some (s, rest).
Proof.
  unfold get_string, put_string. rewrite <- app_assoc, get_nat_put. cbn.
  rewrite <- length_list_ascii_of_string.
  rewrite decide_True by (rewrite length_app; lia).
  rewrite take_app_length, drop_app_length.
  by rewrite String.string_of_list_ascii_of_string.
Qed.

Lemma get_many_put {A} (put : A → list ascii) get xs rest :
  (∀ x rest', get (put x ++ rest') = Some (x, rest')) →
  get_many get (length xs) (flat_map put xs ++ rest) = Some (xs, rest).
Proof.
  intros Hget. induction xs as [|x xs IH]; [done|].
  cbn [length flat_map get_many]. rewrite <- app_assoc, Hget. cbn.
  by rewrite IH.
Qed.

Lemma get_list_put {A} (put : A → list ascii) get xs rest :
  (∀ x rest', get (put x ++ rest') = Some (x, rest')) →
  get_list get (put_list put xs ++ rest) = Some (xs, rest).
Proof.
  intros Hget. unfold get_list, put_list.
  rewrite <- app_assoc, get_nat_put. cbn. by apply get_many_put.
Qed.

Lemma get_field_put f rest : get_field (put_field f ++ rest) = Some (f, rest).
Proof.
  destruct f as [k v]. unfold get_field, put_field. cbn [fst snd].
  rewrite <- app_assoc, get_string_put. cbn. by rewrite get_string_put.
Qed.

Lemma get_kind_put k rest : get_kind (put_kind k ++ rest) = Some (k, rest).
Proof.
  destruct k as [| | | |tag]; try reflexivity.
  cbn. by rewrite get_string_put.
Qed.

Lemma get_record_put r rest :
  get_record (put_record r ++ rest) = Some (r, rest).
Proof.
  destruct r as [k fs]. unfold get_record, put_record. cbn [kind fields].
  rewrite <- app_assoc, get_kind_put. cbn.
  by rewrite (get_list_put put_field get_field fs rest get_field_put).
Qed.

Lemma deserialize_serialize b : deserialize (serialize b) = Some b.
Proof.
  unfold deserialize, serialize.
  rewrite <- (app_nil_r (put_list put_record b)).
  by rewrite (get_list_put put_record get_record b [] get_record_put).
Qed.

Lemma xor_ascii_involutive k c : xor_ascii k (xor_ascii k c) = c.
Proof.
  destruct k, c. cbn.
  by rewrite <- !xorb_assoc, !xorb_nilpotent, !xorb_false_l.
Qed.

Lemma xor_stream_involutive key ahead data :
  xor_stream key ahead (xor_stream key ahead data) = data.
Proof.
  revert ahead. induction data as [|c data IH]; intros ahead; [done|].
  cbn [xor_stream].
  destruct ahead as [|k ahead]; [destruct key as [|k key]|];
    cbn [xor_stream]; rewrite ?xor_ascii_involutive, IH; reflexivity.
Qed.

Lemma cipher_involutive key data : cipher key (cipher key data) = data.
Proof. apply xor_stream_involutive. Qed.

(** C6: decrypting what was encrypted under the same key gives the
    bundle back, for every key and every bundle. *)
Theorem decrypt_encrypt (key : list ascii) (b : bundle) :
  decrypt key (encrypt key b) = Return b.
Proof.
  unfold decrypt, encrypt.
  by rewrite cipher_involutive, deserialize_serialize.
Qed.

End CodecFacts.

Section CodecRuns.
Import Codec Scenario.

(** The wire form of the sample bundle, before the cipher. *)
Example sample_bundle_on_the_wire :
  String.string_of_list_ascii (serialize sample_bundle)
  = "1:P2:4:date10:2026-01-1513:careContextId6:cc-001".
Proof. reflexivity. Qed.

(** At rest the payload is not the wire form. *)
Example sample_bundle_is_opaque :
  encrypt system_key sample_bundle ≠ serialize sample_bundle.
Proof. vm_compute. discriminate. Qed.

(** A blob cut short, and a blob read with another key, do not decode. *)
Example truncated_blob_fails :
  decrypt system_key (take 20 (encrypt system_key sample_bundle))
  = Raise DecodeError.
Proof. reflexivity. Qed.

Example wrong_key_fails :
  decrypt (String.list_ascii_of_string "other")
          (encrypt system_key sample_bundle)
  = Raise DecodeError.
Proof. reflexivity. Qed.

Example unknown_kind_survives :
  let b := [HealthRecord (Unknown "WELLNESS_RECORD") [("steps", "9000")];
            HealthRecord Immunization []] in
  decrypt system_key (encrypt system_key b) = Return b.
Proof. reflexivity. Qed.

End CodecRuns.

(** * Properties of the gateway services *)

Section GatewayFacts.
Import Gateway.

(** Unfolds the monadic plumbing of a service call. *)
Ltac run :=
  cbv [mbind mret Eff_bind Eff_ret get_db put_db raise now new_uuid encrypt
       add_patient add_consent add_transfer update_consent update_transfer
       send_hip_data_request set_db]; cbn [db clock_reads uuid_calls dispatched
       patients consent_requests data_transfers fst snd].

Lemma receivable_spec s :
  receivable s = true ↔ s = "REQUESTED" ∨ s = "FORWARDED" ∨ s = "PROCESSING".
Proof.
  unfold receivable. rewrite !orb_true_iff, !String.eqb_eq. tauto.
Qed.

(** ** notify_consent *)

(** C9: for an unknown consent id [notify_consent] returns the NOT_FOUND
    dictionary, raises nothing and leaves the whole state as it was; for a
    known id it returns the given status and stores it on that consent,
    every other record being untouched. *)
Theorem notify_consent_spec (consent_id status' : string) (e : Env) (w : World) :
  match consent_requests (db w) !! consent_id with
  | None =>
      notify_consent consent_id status' e w =
        (Return [("consentRequestId", consent_id); ("status", "NOT_FOUND")], w)
  | Some consent =>
      ∃ w', notify_consent consent_id status' e w =
              (Return [("consentRequestId", consent_id); ("status", status')], w')
        ∧ (∃ c', consent_requests (db w') !! consent_id = Some c'
                 ∧ consent_status c' = status'
                 ∧ consent_patient_abha_id c' = consent_patient_abha_id consent
                 ∧ consent_hip_id c' = consent_hip_id consent
                 ∧ purpose c' = purpose consent)
        ∧ (∀ other, other ≠ consent_id →
             consent_requests (db w') !! other = consent_requests (db w) !! other)
        ∧ patients (db w') = patients (db w)
        ∧ data_transfers (db w') = data_transfers (db w)
        ∧ dispatched w' = dispatched w
  end.
Proof.
  unfold notify_consent. run.
  destruct (consent_requests (db w) !! consent_id) as [consent|] eqn:Hc; [|done].
  eexists. split; [reflexivity|]. cbn.
  split; [|split; [|done]].
  - eexists. rewrite lookup_insert_eq. done.
  - intros other Hne. by rewrite lookup_insert_ne.
Qed.

(** ** receive_health_data_from_hip *)

Lemma receive_not_found request_id health_data e w :
  data_transfers (db w) !! request_id = None →
  receive_health_data_from_hip request_id health_data e w =
    (Return [("error", "Request not found"); ("status", "FAILED")], w).
Proof. intros H. unfold receive_health_data_from_hip. run. by rewrite H. Qed.

Lemma receive_rejected request_id health_data e w t :
  data_transfers (db w) !! request_id = Some t →
  receivable (status t) = false →
  receive_health_data_from_hip request_id health_data e w =
    (Return [("error", "Invalid request status: " +:+ status t);
             ("status", "FAILED")], w).
Proof.
  intros H Hs. unfold receive_health_data_from_hip. run. by rewrite H, Hs.
Qed.

Lemma receive_accepted request_id health_data e w t :
  data_transfers (db w) !! request_id = Some t →
  receivable (status t) = true →
  receive_health_data_from_hip request_id health_data e w =
    (Return [("requestId", request_id); ("status", "READY");
             ("message", "Health data received and ready for delivery")],
     mkWorld
       (set_data_transfers
          (<[request_id := set_ready (encrypt_dict e health_data)
                             (utcnow e (clock_reads w)) t]>
             (data_transfers (db w))) (db w))
       (S (clock_reads w)) (uuid_calls w) (dispatched w)).
Proof.
  intros H Hs. unfold receive_health_data_from_hip. run. by rewrite H, Hs.
Qed.

(** C5: [receive_health_data_from_hip] returns an error result exactly
    when the transfer is unknown or its status is none of REQUESTED,
    FORWARDED, PROCESSING; and an error result leaves the whole state, the
    transfer record included, as it was. *)
Theorem receive_error_iff (request_id : string) (health_data : Codec.bundle)
    (e : Env) (w : World) :
  let out := receive_health_data_from_hip request_id health_data e w in
  (is_error (fst out) ↔
     data_transfers (db w) !! request_id = None
     ∨ ∃ t, data_transfers (db w) !! request_id = Some t
            ∧ ¬ (status t = "REQUESTED" ∨ status t = "FORWARDED"
                 ∨ status t = "PROCESSING"))
  ∧ (is_error (fst out) → snd out = w).
Proof.
  cbn zeta.
  destruct (data_transfers (db w) !! request_id) as [t|] eqn:Ht.
  - destruct (receivable (status t)) eqn:Hs.
    + rewrite (receive_accepted _ _ _ _ _ Ht Hs). cbn [fst snd].
      assert (Hno : ¬ is_error (Return
        [("requestId", request_id); ("status", "READY");
         ("message", "Health data received and ready for delivery")])).
      { intros (d & msg & [= <-] & Hd). discriminate Hd. }
      split; [|tauto]. split; [tauto|].
      intros [|(t' & [= <-] & Hn)]; [done|].
      apply receivable_spec in Hs. tauto.
    + rewrite (receive_rejected _ _ _ _ _ Ht Hs). cbn [fst snd].
      split; [|done]. split.
      * intros _. right. exists t. split; [done|].
        rewrite <- receivable_spec, Hs. done.
      * intros _. eexists _, _. split; [reflexivity|]. reflexivity.
  - rewrite (receive_not_found _ _ _ _ Ht). cbn [fst snd].
    split; [|done]. split; [by left|].
    intros _. eexists _, _. split; reflexivity.
Qed.

(** C4, as the code has it: a payload submitted for a transfer in
    REQUESTED, FORWARDED or PROCESSING is accepted: the call returns the
    READY dictionary, the transfer becomes READY, holds the encrypted
    payload, and is due at the clock reading the call took. *)
Theorem receive_accepts_open_transfer (request_id : string)
    (health_data : Codec.bundle) (e : Env) (w : World) (t : DataTransfer) :
  data_transfers (db w) !! request_id = Some t →
  status t = "REQUESTED" ∨ status t = "FORWARDED" ∨ status t = "PROCESSING" →
  ∃ d w' t',
    receive_health_data_from_hip request_id health_data e w = (Return d, w')
    ∧ ¬ is_error (Return d)
    ∧ dict_get "status" d = Some "READY"
    ∧ data_transfers (db w') !! request_id = Some t'
    ∧ status t' = "READY"
    ∧ encrypted_data t' = Some (encrypt_dict e health_data)
    ∧ next_retry_at t' = Some (utcnow e (clock_reads w)).
Proof.
  intros Ht Hs. apply receivable_spec in Hs.
  rewrite (receive_accepted _ _ _ _ _ Ht Hs).
  eexists _, _, _. split; [reflexivity|]. cbn.
  split; [|split; [done|]].
  - intros (d & msg & [= <-] & Hd). discriminate Hd.
  - rewrite lookup_insert_eq. done.
Qed.

(** ** request_health_info *)

Lemma ensure_patient_run patient_abha_id e w :
  ∃ patient m,
    _ensure_patient patient_abha_id e w =
      (Return patient, set_db (set_patients m (db w)) w).
Proof.
  unfold _ensure_patient. run.
  destruct (patients (db w) !! patient_abha_id) as [pt|] eqn:Hp.
  - exists pt, (patients (db w)). destruct w as [[] ? ? ?]. done.
  - run. rewrite Hp. eexists _, _. reflexivity.
Qed.

Lemma fresh_consent_run consent_id patient_abha_id hip_id e w :
  match fresh_consent consent_id patient_abha_id hip_id e w with
  | (Return a, w') => consent_ensured w a w'
  | (Raise _, w') => nothing_done w w'
  end.
Proof.
  unfold fresh_consent, consent_ensured, nothing_done.
  destruct consent_id as [c|]; [destruct (truthy c)|]; run;
    match goal with
    | |- context [consent_requests (db w) !! ?k] =>
        destruct (consent_requests (db w) !! k) eqn:Hk
    end; cbn; try done;
    (split; [eexists; by rewrite lookup_insert_eq | done]).
Qed.

Lemma ensure_consent_run consent_id patient_abha_id hip_id e w :
  match _ensure_consent_approved consent_id patient_abha_id hip_id e w with
  | (Return a, w') =>
      consent_ensured w a w'
      ∧ (∀ c, consent_id = Some c → truthy c = true → a = c)
  | (Raise _, w') => nothing_done w w'
  end.
Proof.
  unfold _ensure_consent_approved.
  pose proof (fresh_consent_run consent_id patient_abha_id hip_id e w) as Hf.
  destruct consent_id as [c|]; [destruct (truthy c) eqn:Ht|].
  - run.
    destruct (consent_requests (db w) !! c) as [consent|] eqn:Hc.
    + destruct (String.eqb (consent_status consent) "APPROVED") eqn:Hs; cbn.
      * apply String.eqb_eq in Hs.
        split; [|by intros ? [= ->]].
        unfold consent_ensured. cbn. eauto 10.
      * split; [|by intros ? [= ->]].
        unfold consent_ensured. cbn.
        split; [eexists; by rewrite lookup_insert_eq | done].
    + destruct (fresh_consent (Some c) patient_abha_id hip_id e w)
        as [[a|x] w'] eqn:Hfc; [|done].
      split; [done|]. intros c' [= <-] _.
      revert Hfc. unfold fresh_consent. rewrite Ht. run. rewrite Hc. cbn.
      by intros [= <- _].
  - destruct (fresh_consent (Some c) patient_abha_id hip_id e w)
      as [[a|x] w'] eqn:Hfc; [|done].
    split; [done|]. intros c' [= <-] Hc. congruence.
  - destruct (fresh_consent None patient_abha_id hip_id e w)
      as [[a|x] w'] eqn:Hfc; [|done].
    split; [done|]. intros c [=].
Qed.

Lemma request_health_info_run patient_abha_id hip_id hiu_id consent_id
    care_context_ids data_types e w :
  match request_health_info patient_abha_id hip_id hiu_id consent_id
          care_context_ids data_types e w with
  | (Return d, w') =>
      request_done patient_abha_id hip_id hiu_id consent_id care_context_ids
        data_types e w d w'
  | (Raise _, w') =>
      dispatched w' = dispatched w
      ∧ data_transfers (db w') = data_transfers (db w)
  end.
Proof.
  unfold request_health_info.
  destruct (ensure_patient_run patient_abha_id e w) as (pt & m & Hp).
  run. rewrite Hp. clear Hp.
  set (w1 := set_db (set_patients m (db w)) w).
  pose proof (ensure_consent_run consent_id patient_abha_id hip_id e w1) as Hc.
  destruct (_ensure_consent_approved consent_id patient_abha_id hip_id e w1)
    as [[a|x] w2].
  - destruct Hc as [((c & Hc & Hs) & _ & Ht & Hk & Hd) Hsame].
    cbn in Ht, Hk, Hd. run. rewrite Ht.
    destruct (data_transfers (db w) !! ("req-" +:+ uuid4 e (uuid_calls w2)))
      eqn:Hfresh; cbn.
    + rewrite Hd, Ht. done.
    + rewrite Hd, Hk.
      exists ("req-" +:+ uuid4 e (uuid_calls w2)), a.
      eexists. cbn.
      split; [reflexivity|]. split; [reflexivity|]. cbn.
      split; [eauto|]. split; [done|]. split; [done|]. split; [done|].
      split; [|done]. by rewrite insert_insert_eq.
  - destruct Hc as [Hdb Hd]. rewrite Hd, Hdb. done.
Qed.

(** C1, as the code has it: a [request_health_info] call that returns has
    attempted the forwarding webhook exactly once, and the consent the
    webhook names is APPROVED in the database handed to the dispatcher; a
    call that raises has attempted none.  But no state of the referenced
    consent blocks the attempt: with a consent found under the given id,
    whatever its status, and the new request id unused, the call returns,
    the webhook is attempted, and the consent is APPROVED by then. *)
Theorem forwarding_sees_approved_consent (patient_abha_id hip_id hiu_id : string)
    (consent_id : option string) (care_context_ids data_types : list string)
    (e : Env) (w : World) :
  let out := request_health_info patient_abha_id hip_id hiu_id consent_id
               care_context_ids data_types e w in
  match fst out with
  | Return _ =>
      ∃ snapshot q c,
        dispatched (snd out) = dispatched w ++ [(snapshot, q)]
        ∧ consent_requests snapshot !! hdr_consent_id q = Some c
        ∧ consent_status c = "APPROVED"
  | Raise _ => dispatched (snd out) = dispatched w
  end
  ∧ (∀ cid c0,
       consent_id = Some cid → truthy cid = true →
       consent_requests (db w) !! cid = Some c0 →
       data_transfers (db w) !! ("req-" +:+ uuid4 e (uuid_calls w)) = None →
       ∃ d snapshot q c,
         fst out = Return d
         ∧ dispatched (snd out) = dispatched w ++ [(snapshot, q)]
         ∧ hdr_consent_id q = cid
         ∧ consent_requests snapshot !! cid = Some c
         ∧ consent_status c = "APPROVED").
Proof.
  cbn zeta.
  pose proof (request_health_info_run patient_abha_id hip_id hiu_id consent_id
                care_context_ids data_types e w) as Hrun.
  split.
  - destruct (request_health_info _ _ _ _ _ _ e w) as [[d|x] w'];
      cbn [fst snd].
    + destruct Hrun as (rid & a & snap & _ & Hd & (c & Hc & Hs) & _).
      eexists snap, _, c. split; [exact Hd|]. cbn. eauto.
    + tauto.
  - intros cid c0 -> Htr Hc0 Hfresh. clear Hrun.
    unfold request_health_info.
    destruct (ensure_patient_run patient_abha_id e w) as (pt & m & Hp).
    run. rewrite Hp. unfold _ensure_consent_approved. rewrite Htr. run.
    cbn [set_patients consent_requests data_transfers]. rewrite Hc0.
    destruct (String.eqb (consent_status c0) "APPROVED") eqn:Hs; cbn;
      rewrite Hfresh; cbn; eexists _, _, _, _;
      (split; [reflexivity|]); (split; [reflexivity|]); cbn;
      (split; [reflexivity|]).
    + apply String.eqb_eq in Hs. eauto.
    + rewrite lookup_insert_eq. eauto.
Qed.

(** C7: the record [request_health_info] creates, as first committed and
    as handed to the dispatcher, is new, has status REQUESTED, is due at
    the clock reading taken for [next_retry_at] and expires 24 hours after
    the clock reading taken for [expires_at] (the two consecutive readings
    of [datetime.utcnow()] made while the record is built); the call
    changes neither timestamp afterwards. *)
Theorem request_creates_requested (patient_abha_id hip_id hiu_id : string)
    (consent_id : option string) (care_context_ids data_types : list string)
    (e : Env) (w : World) (d : Dict) (w' : World) :
  request_health_info patient_abha_id hip_id hiu_id consent_id
    care_context_ids data_types e w = (Return d, w') →
  ∃ request_id snapshot q created final,
    dict_get "requestId" d = Some request_id
    ∧ data_transfers (db w) !! request_id = None
    ∧ last (dispatched w') = Some (snapshot, q)
    ∧ data_transfers snapshot !! request_id = Some created
    ∧ status created = "REQUESTED"
    ∧ next_retry_at created = Some (utcnow e (clock_reads w))
    ∧ expires_at created =
        Some (utcnow e (S (clock_reads w)) + 24 * 3600 * 1000000)
    ∧ data_transfers (db w') !! request_id = Some final
    ∧ next_retry_at final = next_retry_at created
    ∧ expires_at final = expires_at created.
Proof.
  intros Hrun.
  pose proof (request_health_info_run patient_abha_id hip_id hiu_id consent_id
                care_context_ids data_types e w) as H.
  rewrite Hrun in H.
  destruct H as (rid & a & snap & -> & Hd & _ & _ & Hfresh & Hsnap & Hfin & _).
  exists rid, snap. eexists _, _, _.
  rewrite Hd, last_snoc, Hsnap, Hfin, !lookup_insert_eq.
  cbn. done.
Qed.

(** With a clock that stands still while the record is built, the expiry
    is exactly 24 hours after the due time. *)
Corollary request_expiry_after_due patient_abha_id hip_id hiu_id consent_id
    care_context_ids data_types e w d w' :
  request_health_info patient_abha_id hip_id hiu_id consent_id
    care_context_ids data_types e w = (Return d, w') →
  utcnow e (S (clock_reads w)) = utcnow e (clock_reads w) →
  ∃ request_id t due,
    dict_get "requestId" d = Some request_id
    ∧ data_transfers (db w') !! request_id = Some t
    ∧ next_retry_at t = Some due
    ∧ expires_at t = Some (due + timedelta_hours 24).
Proof.
  intros Hrun Hclock.
  pose proof (request_health_info_run patient_abha_id hip_id hiu_id consent_id
                care_context_ids data_types e w) as H.
  rewrite Hrun in H.
  destruct H as (rid & a & snap & -> & _ & _ & _ & _ & _ & Hfin & _).
  exists rid. eexists _, _. rewrite Hfin, lookup_insert_eq. cbn.
  rewrite Hclock. done.
Qed.

(** C8: when [request_health_info] has returned, the transfer it created
    is FORWARDED if its webhook call succeeded and FAILED if it did not,
    nothing else, and the returned dictionary reports that status. *)
Theorem request_forwarded_or_failed (patient_abha_id hip_id hiu_id : string)
    (consent_id : option string) (care_context_ids data_types : list string)
    (e : Env) (w : World) (d : Dict) (w' : World) :
  request_health_info patient_abha_id hip_id hiu_id consent_id
    care_context_ids data_types e w = (Return d, w') →
  ∃ request_id t,
    dict_get "requestId" d = Some request_id
    ∧ data_transfers (db w) !! request_id = None
    ∧ data_transfers (db w') !! request_id = Some t
    ∧ length (dispatched w') = S (length (dispatched w))
    ∧ status t = (if hip_webhook e (length (dispatched w))
                  then "FORWARDED" else "FAILED")
    ∧ dict_get "status" d = Some (status t).
Proof.
  intros Hrun.
  pose proof (request_health_info_run patient_abha_id hip_id hiu_id consent_id
                care_context_ids data_types e w) as H.
  rewrite Hrun in H.
  destruct H as (rid & a & snap & -> & Hd & _ & _ & Hfresh & Hsnap & Hfin & _).
  exists rid. eexists.
  rewrite Hd, Hfin, lookup_insert_eq, length_app. cbn.
  repeat split; [done|lia].
Qed.

(** ** What each operation does to the transfer table *)

Lemma init_consent_transfers patient_abha_id hip_id purpose' e w :
  data_transfers (db (snd (init_consent patient_abha_id hip_id purpose' e w)))
  = data_transfers (db w).
Proof.
  unfold init_consent.
  destruct (ensure_patient_run patient_abha_id e w) as (pt & m & Hp).
  run. rewrite Hp. run. cbn [set_patients consent_requests].
  by destruct (consent_requests (db w) !! uuid4 e (uuid_calls w)).
Qed.

Lemma notify_consent_transfers consent_id status' e w :
  data_transfers (db (snd (notify_consent consent_id status' e w)))
  = data_transfers (db w).
Proof.
  unfold notify_consent. run.
  by destruct (consent_requests (db w) !! consent_id).
Qed.

(** Every operation either leaves the transfer table alone or writes one
    row of it. *)
Lemma run_op_transfers e o w :
  data_transfers (db (snd (run_op o e w))) = data_transfers (db w)
  ∨ ∃ k t, data_transfers (db (snd (run_op o e w)))
           = <[k := t]> (data_transfers (db w))
         ∧ match o with
           | RequestHealthInfo _ _ _ _ _ _ =>
               data_transfers (db w) !! k = None
               ∧ encrypted_data t = None
               ∧ (status t = "FORWARDED" ∨ status t = "FAILED")
           | ReceiveHealthData r _ =>
               k = r ∧ is_Some (encrypted_data t) ∧ status t = "READY"
               ∧ ∃ t0, data_transfers (db w) !! k = Some t0
                       ∧ receivable (status t0) = true
           | SendHealthInfo _ _ _ _ => data_transfers (db w) !! k = None
           | NotifyDataFlow r _ _ => k = r
           | InitConsent _ _ _ | NotifyConsent _ _ => False
           end.
Proof.
  destruct o as [p hip hiu c ccs dts|r h|tx p hip cc|tx s hip|p hip pu|c s];
    cbn [run_op].
  - pose proof (request_health_info_run p hip hiu c ccs dts e w) as H.
    destruct (request_health_info p hip hiu c ccs dts e w) as [[d|x] w'];
      cbn [snd]; [|left; tauto].
    destruct H as (rid & a & snap & _ & _ & _ & _ & Hfresh & _ & Hfin & _).
    right. eexists _, _. split; [exact Hfin|]. split; [done|].
    split; [done|]. cbn. destruct (hip_webhook e _); tauto.
  - destruct (data_transfers (db w) !! r) as [t|] eqn:Ht.
    + destruct (receivable (status t)) eqn:Hs.
      * rewrite (receive_accepted _ _ _ _ _ Ht Hs). right. cbn.
        eexists _, _. split; [reflexivity|]. cbn. eauto 10.
      * rewrite (receive_rejected _ _ _ _ _ Ht Hs). by left.
    + rewrite (receive_not_found _ _ _ _ Ht). by left.
  - unfold send_health_info, dangling. run.
    destruct (_ || _); cbn; [by left|].
    destruct (data_transfers (db w) !! uuid4 e (uuid_calls w)) eqn:Hk; cbn;
      [by left|].
    right. eexists _, _. split; [reflexivity|done].
  - unfold notify_data_flow. run.
    destruct (data_transfers (db w) !! tx) eqn:Hk; cbn; [|by left].
    right. eexists _, _. split; [reflexivity|done].
  - left. apply init_consent_transfers.
  - left. apply notify_consent_transfers.
Qed.

(** A transfer that no longer takes a payload is out of reach of every
    call except a [notify_data_flow] naming it. *)
Lemma run_op_keeps_closed e o w transfer_id t :
  data_transfers (db w) !! transfer_id = Some t →
  receivable (status t) = false →
  (∀ s h, o ≠ NotifyDataFlow transfer_id s h) →
  data_transfers (db (snd (run_op o e w))) !! transfer_id = Some t.
Proof.
  intros Ht Hs Ho.
  destruct (run_op_transfers e o w) as [->|(k & t' & -> & Hk)]; [done|].
  destruct (decide (k = transfer_id)) as [->|Hne];
    [|by rewrite lookup_insert_ne].
  destruct o; try done.
  - destruct Hk as [Hk _]. congruence.
  - destruct Hk as (_ & _ & _ & t0 & Ht0 & Hr). congruence.
  - congruence.
  - subst. by destruct (Ho status' hip_id).
Qed.

Lemma terminal_not_receivable s : terminal s → receivable s = false.
Proof. by intros [-> | ->]. Qed.

(** C2, as the code has it: through every sequence of operations that
    holds no [notify_data_flow] call naming the transfer, a transfer in a
    terminal state (DELIVERED or EXPIRED) keeps its record, status
    included. *)
Theorem terminal_is_final (e : Env) (os : list op) (w : World)
    (transfer_id : string) (t : DataTransfer) :
  data_transfers (db w) !! transfer_id = Some t →
  terminal (status t) →
  (∀ s h, NotifyDataFlow transfer_id s h ∉ os) →
  data_transfers (db (run_ops e os w)) !! transfer_id = Some t.
Proof.
  intros Ht Hterm. revert w Ht.
  induction os as [|o os IH]; intros w Ht Hos; [done|].
  cbn [run_ops]. apply IH.
  - apply run_op_keeps_closed; [done|by apply terminal_not_receivable|].
    intros s h ->. apply (Hos s h). by left.
  - intros s h Hin. apply (Hos s h). by right.
Qed.

(** C3, as the code has it: every operation that is not one of the two
    legacy methods ([send_health_info], [notify_data_flow]) preserves, for
    each transfer record by itself, that the payload is stored exactly
    when the status is READY or DELIVERED: a record that satisfies it
    before the call satisfies it after, whatever the other records of the
    table look like, and a record the call creates satisfies it. *)
Theorem payload_invariant_preserved (e : Env) (o : op) (w : World)
    (k : string) :
  legacy o = false →
  (∀ t, data_transfers (db w) !! k = Some t → payload_invariant t) →
  ∀ t', data_transfers (db (snd (run_op o e w))) !! k = Some t' →
        payload_invariant t'.
Proof.
  intros Hl Hinv t.
  destruct (run_op_transfers e o w) as [->|(k' & t' & -> & Hk)]; [apply Hinv|].
  destruct (decide (k' = k)) as [->|Hne];
    [rewrite lookup_insert_eq | rewrite lookup_insert_ne by done; apply Hinv].
  intros [= <-]. unfold payload_invariant.
  destruct o; try done.
  - destruct Hk as (_ & -> & [-> | ->]);
      (split; [by intros [? ?] | intros [|]; discriminate]).
  - destruct Hk as (_ & Hp & -> & _). tauto.
Qed.

End GatewayFacts.

(** ** Concrete runs of the gateway *)

Section GatewayRuns.
Import Gateway Scenario.

(** C1 as stated fails: with the referenced consent DENIED in the store,
    [request_health_info] still attempts the forwarding webhook, naming
    that consent; likewise with it REVOKED. *)
Lemma denied_consent_does_not_block :
  let call := request_health_info "p1" "hip1" "hiu1" (Some "c1")
                ["cc-001"] ["PRESCRIPTION"] sample_env in
  (consent_status <$> consent_requests (db (world_with_consent "DENIED")) !! "c1"
     = Some "DENIED"
   ∧ dispatched (world_with_consent "DENIED") = []
   ∧ (hdr_consent_id ∘ snd) <$>
       dispatched (snd (call (world_with_consent "DENIED"))) = ["c1"])
  ∧ (consent_status <$> consent_requests (db (world_with_consent "REVOKED")) !! "c1"
       = Some "REVOKED"
     ∧ dispatched (world_with_consent "REVOKED") = []
     ∧ (hdr_consent_id ∘ snd) <$>
         dispatched (snd (call (world_with_consent "REVOKED"))) = ["c1"]).
Proof. vm_compute. done. Qed.

Lemma forwarding_sees_approved_consent_witness :
  let w := world_with_consent "REVOKED" in
  let out := request_health_info "p1" "hip1" "hiu1" (Some "c1")
               ["cc-001"] ["PRESCRIPTION"] sample_env w in
  ∃ d snapshot q c,
    fst out = Return d
    ∧ dispatched (snd out) = dispatched w ++ [(snapshot, q)]
    ∧ hdr_consent_id q = "c1"
    ∧ consent_requests snapshot !! "c1" = Some c
    ∧ consent_status c = "APPROVED".
Proof.
  apply (proj2 (forwarding_sees_approved_consent "p1" "hip1" "hiu1" (Some "c1")
                  ["cc-001"] ["PRESCRIPTION"] sample_env
                  (world_with_consent "REVOKED"))
               "c1" (sample_consent "REVOKED"));
    reflexivity.
Defined.

(** C2 as stated fails: [notify_data_flow] moves a DELIVERED transfer
    back to REQUESTED. *)
Lemma delivered_transfer_reopened :
  let w := world_with_transfer "DELIVERED" (Some []) in
  status <$> data_transfers (db w) !! "req-1" = Some "DELIVERED"
  ∧ status <$>
      data_transfers
        (db (run_ops sample_env [NotifyDataFlow "req-1" "REQUESTED" "hip1"] w))
        !! "req-1"
    = Some "REQUESTED".
Proof. vm_compute. done. Qed.

Lemma terminal_is_final_witness :
  let w := world_with_transfer "DELIVERED" (Some []) in
  data_transfers
    (db (run_ops sample_env
           [ReceiveHealthData "req-1" sample_bundle;
            RequestHealthInfo "p1" "hip1" "hiu1" (Some "c1") [] ["PRESCRIPTION"];
            NotifyDataFlow "0a" "EXPIRED" "hip1";
            SendHealthInfo "c1" "p1" "hip1" "cc-001"] w))
    !! "req-1"
  = Some (sample_transfer "DELIVERED" (Some [])).
Proof.
  apply terminal_is_final.
  - reflexivity.
  - left. reflexivity.
  - intros s h Hin.
    repeat (apply elem_of_cons in Hin as [Hin|Hin]; [discriminate Hin|]).
    exact (proj1 (elem_of_nil _) Hin).
Defined.

(** C3 as stated fails: [send_health_info] creates a DELIVERED record
    that holds no payload. *)
Lemma legacy_record_has_no_payload :
  let w := world_with_consent "APPROVED" in
  let w' := snd (send_health_info "c1" "p1" "hip1" "cc-001" sample_env w) in
  data_transfers (db w) = ∅
  ∧ ∃ t, data_transfers (db w') !! "0a" = Some t
         ∧ status t = "DELIVERED"
         ∧ encrypted_data t = None
         ∧ ¬ payload_invariant t.
Proof.
  split; [reflexivity|]. eexists. split; [vm_compute; reflexivity|].
  split; [reflexivity|]. split; [reflexivity|].
  intros [_ H]. destruct H as [x Hx]; [by right|]. discriminate Hx.
Qed.

Lemma payload_invariant_preserved_witness :
  let w := snd (send_health_info "c1" "p1" "hip1" "cc-001" sample_env
                  (world_with_transfer "FORWARDED" None)) in
  (∃ t0, data_transfers (db w) !! "0a" = Some t0 ∧ ¬ payload_invariant t0)
  ∧ ∃ t, data_transfers
           (db (snd (run_op (ReceiveHealthData "req-1" sample_bundle)
                       sample_env w))) !! "req-1" = Some t
         ∧ status t = "READY"
         ∧ payload_invariant t.
Proof.
  split.
  - eexists. split; [vm_compute; reflexivity|].
    intros [_ H]. destruct H as [x Hx]; [by right|]. discriminate Hx.
  - eexists. split; [vm_compute; reflexivity|]. split; [reflexivity|].
    apply (payload_invariant_preserved sample_env
             (ReceiveHealthData "req-1" sample_bundle)
             (snd (send_health_info "c1" "p1" "hip1" "cc-001" sample_env
                     (world_with_transfer "FORWARDED" None)))
             "req-1" eq_refl).
    + intros t Ht. vm_compute in Ht. injection Ht as <-.
      split; [intros [x Hx]; discriminate Hx | intros [H|H]; discriminate H].
    + vm_compute. reflexivity.
Defined.

(** C4 as stated fails: a payload submitted for a transfer in REQUESTED is
    not rejected; the call answers READY and the transfer becomes READY. *)
Lemma requested_payload_accepted :
  let w := world_with_transfer "REQUESTED" None in
  let out := receive_health_data_from_hip "req-1" sample_bundle sample_env w in
  status <$> data_transfers (db w) !! "req-1" = Some "REQUESTED"
  ∧ fst out = Return [("requestId", "req-1"); ("status", "READY");
                      ("message", "Health data received and ready for delivery")]
  ∧ ¬ is_error (fst out)
  ∧ status <$> data_transfers (db (snd out)) !! "req-1" = Some "READY".
Proof.
  split; [reflexivity|]. split; [reflexivity|].
  split; [|vm_compute; reflexivity].
  intros (d & msg & Hd & Hmsg). vm_compute in Hd. injection Hd as <-.
  discriminate Hmsg.
Qed.

Lemma receive_accepts_open_transfer_witness :
  let w := world_with_transfer "FORWARDED" None in
  ∃ d w' t',
    receive_health_data_from_hip "req-1" sample_bundle sample_env w
      = (Return d, w')
    ∧ ¬ is_error (Return d)
    ∧ dict_get "status" d = Some "READY"
    ∧ data_transfers (db w') !! "req-1" = Some t'
    ∧ status t' = "READY"
    ∧ encrypted_data t' = Some (encrypt_dict sample_env sample_bundle)
    ∧ next_retry_at t' = Some (utcnow sample_env 0).
Proof.
  apply (receive_accepts_open_transfer "req-1" sample_bundle sample_env
           (world_with_transfer "FORWARDED" None)
           (sample_transfer "FORWARDED" None)).
  - reflexivity.
  - right. left. reflexivity.
Defined.

Lemma request_creates_requested_witness :
  let w := world_with_consent "APPROVED" in
  let out := request_health_info "p1" "hip1" "hiu1" (Some "c1")
               ["cc-001"] ["PRESCRIPTION"] sample_env w in
  ∃ request_id snapshot q created final,
    dict_get "requestId"
      [("requestId", "req-0a"); ("consentId", "c1"); ("status", "FORWARDED");
       ("message", "Data request created and forwarded to HIP")]
      = Some request_id
    ∧ data_transfers (db w) !! request_id = None
    ∧ last (dispatched (snd out)) = Some (snapshot, q)
    ∧ data_transfers snapshot !! request_id = Some created
    ∧ status created = "REQUESTED"
    ∧ next_retry_at created = Some (utcnow sample_env 0)
    ∧ expires_at created = Some (utcnow sample_env 1 + 24 * 3600 * 1000000)
    ∧ data_transfers (db (snd out)) !! request_id = Some final
    ∧ next_retry_at final = next_retry_at created
    ∧ expires_at final = expires_at created.
Proof.
  apply (request_creates_requested "p1" "hip1" "hiu1" (Some "c1")
           ["cc-001"] ["PRESCRIPTION"] sample_env
           (world_with_consent "APPROVED")).
  vm_compute. reflexivity.
Defined.

Lemma request_forwarded_or_failed_witness :
  let w := world_with_consent "APPROVED" in
  let out := request_health_info "p1" "hip1" "hiu1" (Some "c1")
               ["cc-001"] ["PRESCRIPTION"] offline_env w in
  ∃ request_id t,
    dict_get "requestId"
      [("requestId", "req-0a"); ("consentId", "c1"); ("status", "FAILED");
       ("message", "Data request created and forwarded to HIP")]
      = Some request_id
    ∧ data_transfers (db w) !! request_id = None
    ∧ data_transfers (db (snd out)) !! request_id = Some t
    ∧ length (dispatched (snd out)) = S (length (dispatched w))
    ∧ status t = (if hip_webhook offline_env (length (dispatched w))
                  then "FORWARDED" else "FAILED")
    ∧ dict_get "status"
        [("requestId", "req-0a"); ("consentId", "c1"); ("status", "FAILED");
         ("message", "Data request created and forwarded to HIP")]
      = Some (status t).
Proof.
  apply (request_forwarded_or_failed "p1" "hip1" "hiu1" (Some "c1")
           ["cc-001"] ["PRESCRIPTION"] offline_env
           (world_with_consent "APPROVED")).
  vm_compute. reflexivity.
Defined.

(** The two outcomes of the forwarding step on the same request. *)
Example request_forwarded_when_peer_answers :
  fst (request_health_info "p1" "hip1" EmptyString None [] ["PRESCRIPTION"; "LAB_REPORT"]
         sample_env (world_with_consent "APPROVED"))
  = Return [("requestId", "req-1b"); ("consentId", "consent-0a");
            ("status", "FORWARDED");
            ("message", "Data request created and forwarded to HIP")].
Proof. vm_compute. reflexivity. Qed.

Example request_failed_when_peer_is_down :
  fst (request_health_info "p1" "hip1" EmptyString None [] ["PRESCRIPTION"; "LAB_REPORT"]
         offline_env (world_with_consent "APPROVED"))
  = Return [("requestId", "req-1b"); ("consentId", "consent-0a");
            ("status", "FAILED");
            ("message", "Data request created and forwarded to HIP")].
Proof. vm_compute. reflexivity. Qed.

End GatewayRuns.

(** * Properties of patient registration *)

Section HospitalFacts.
Import Hospital.

Ltac run :=
  cbv [mbind mret Eff_bind Eff_ret raise get_patients put_patients ask
       Hospital.new_uuid]; cbn [patients uuid_calls fst snd].

Lemma filter_all_false {A} (f : A → bool) (l : list A) :
  (∀ y, y ∈ l → f y = false) → List.filter f l = [].
Proof.
  induction l as [|a l IH]; intros H; [done|]. cbn.
  rewrite (H a) by left. apply IH. intros y Hy. apply H. by right.
Qed.

Lemma filter_unique {A} (f : A → bool) (l : list A) (x : A) :
  NoDup l → x ∈ l → f x = true →
  (∀ y, y ∈ l → f y = true → y = x) →
  List.filter f l = [x].
Proof.
  induction l as [|a l IH]; intros Hnd Hx Hfx Huniq.
  - by apply elem_of_nil in Hx.
  - apply NoDup_cons in Hnd as [Ha Hnd]. cbn.
    destruct (f a) eqn:Hfa.
    + assert (a = x) as -> by (apply Huniq; [left|done]).
      f_equal. apply filter_all_false. intros y Hy.
      destruct (f y) eqn:Hfy; [|done].
      assert (y = x) as -> by (apply Huniq; [by right|done]). done.
    + apply elem_of_cons in Hx as [->|Hx]; [congruence|].
      apply IH; try done. intros y Hy. apply Huniq. by right.
Qed.

Lemma scalar_unique cond e w id p :
  patients w !! id = Some p → cond p = true →
  (∀ id' p', patients w !! id' = Some p' → cond p' = true → id' = id) →
  scalar_one_or_none cond e w = (Return (Some (id, p)), w).
Proof.
  intros Hp Hc Huniq. unfold scalar_one_or_none, select_where. run.
  rewrite (filter_unique _ _ (id, p)); [done|apply NoDup_map_to_list| |done|].
  - by apply elem_of_map_to_list.
  - intros [id' p'] Hin Hc'. apply elem_of_map_to_list in Hin. cbn in Hc'.
    assert (id' = id) as -> by eauto. congruence.
Qed.

Lemma scalar_none cond e w :
  (∀ id' p', patients w !! id' = Some p' → cond p' = false) →
  scalar_one_or_none cond e w = (Return None, w).
Proof.
  intros Hnone. unfold scalar_one_or_none, select_where. run.
  rewrite filter_all_false; [done|].
  intros [id' p'] Hin. apply elem_of_map_to_list in Hin. cbn. eauto.
Qed.

Lemma col_eq_true column value : col_eq column value = true ↔ column = Some value.
Proof.
  destruct column as [x|]; cbn; [|done].
  rewrite String.eqb_eq. split; congruence.
Qed.

Lemma find_patient_by_mobile_known request e w id p :
  known_by_mobile request (patients w) id p →
  ∃ d, find_patient_by_mobile (req_mobile request) e w = (Return (Some d), w)
       ∧ describes e id p d.
Proof.
  intros (Hp & Hm & Huniq & _). unfold find_patient_by_mobile. run.
  rewrite (scalar_unique _ e w id p); [| done | by apply col_eq_true |].
  - eexists. split; [reflexivity|]. by repeat split.
  - intros id' p' Hp' Hc. apply col_eq_true in Hc. eauto.
Qed.

(** The lookup by an optional column of the request either skips, finds
    nothing, or finds the row known by its mobile number. *)
Lemma optional_lookup_known (column : Patient → option string)
    (value : option string) e w id p :
  patients w !! id = Some p →
  (∀ id' p' a, patients w !! id' = Some p' →
     value = Some a → truthy a = true → column p' = Some a → id' = id) →
  let stage : M (option (string * Patient)) :=
    if truthy_opt value
    then scalar_one_or_none (λ p, col_eq (column p) (default EmptyString value))
    else mret None in
  (stage e w = (Return (Some (id, p)), w)
   ∧ truthy_opt value = true ∧ column p = value)
  ∨ (stage e w = (Return None, w)
     ∧ (truthy_opt value = true → column p ≠ value)).
Proof.
  intros Hp Huniq. cbn zeta.
  destruct value as [a|]; cbn [truthy_opt default];
    [destruct (truthy a) eqn:Ha|]; try (right; split; [reflexivity|done]).
  destruct (decide (column p = Some a)) as [Hc|Hc].
  - left. split; [|done]. apply scalar_unique; [done|by apply col_eq_true|].
    intros id' p' Hp' Hc'. apply col_eq_true in Hc'. eauto.
  - right. split; [|done]. apply scalar_none.
    intros id' p' Hp' . destruct (col_eq (column p') a) eqn:Hc'; [|done].
    apply col_eq_true in Hc'.
    assert (id' = id) as -> by eauto. congruence.
Qed.

(** One call of [register_patient] on a request whose mobile number is
    known: the row's data comes back, and the table is untouched unless
    the Aadhaar branch fills in the row's missing ABHA id. *)
Lemma register_known_step request e w id p :
  known_by_mobile request (patients w) id p →
  ∃ d p',
    describes e id p' d
    ∧ ((register_patient request e w = (Return d, w) ∧ p' = p)
       ∨ (truthy_opt (abhaId request) = true
          ∧ truthy_opt (abha_id p) = false
          ∧ p' = set_abha_id (abhaId request) p
          ∧ register_patient request e w =
              (Return d, mkWorld (<[id := p']> (patients w)) (uuid_calls w)))).
Proof.
  intros Hk.
  destruct (find_patient_by_mobile_known request e w id p Hk)
    as (dm & Hfind & Hdm).
  destruct Hk as (Hp & Hm & Hmob & Habha & Haad).
  unfold register_patient. cbv [mbind Eff_bind ask].
  destruct (optional_lookup_known abha_id (abhaId request) e w id p
              Hp Habha) as [(-> & Ht & Hc) | (-> & Hno)].
  { eexists _, p. split; [|left; split; [reflexivity|done]].
    by repeat split. }
  destruct (optional_lookup_known aadhaar (req_aadhaar request) e w id p
              Hp Haad) as [(-> & Ht & Hc) | (-> & Hno')].
  - destruct (truthy_opt (abhaId request) && negb (truthy_opt (abha_id p)))
      eqn:Hupd; run.
    + apply andb_true_iff in Hupd as [Hreq Hnot].
      apply negb_true_iff in Hnot.
      eexists _, (set_abha_id (abhaId request) p).
      split; [|right; split; [done|split; [done|split; reflexivity]]].
      by repeat split.
    + eexists _, p. split; [|left; split; [reflexivity|done]].
      by repeat split.
  - rewrite Hfind. exists dm, p. split; [done|]. by left.
Qed.

(** C10: a request whose mobile number is that of one existing patient,
    and whose ABHA id and Aadhaar number match no other row, gets that
    patient's data back; the table keeps its rows (no row is added, none
    but the patient's own is written), and a second call with the same
    request returns the same patient and leaves the table as the first
    call left it. *)
Theorem register_patient_known_mobile (request : PatientRegistrationRequest)
    (e : Env) (w : World) (id : string) (p : Patient) :
  known_by_mobile request (patients w) id p →
  ∃ d w' p',
    register_patient request e w = (Return d, w')
    ∧ patients w' !! id = Some p'
    ∧ describes e id p' d
    ∧ mobile p' = mobile p
    ∧ dom (patients w') = dom (patients w)
    ∧ (∀ id', id' ≠ id → patients w' !! id' = patients w !! id')
    ∧ uuid_calls w' = uuid_calls w
    ∧ ∃ d2, register_patient request e w' = (Return d2, w')
            ∧ describes e id p' d2.
Proof.
  intros Hk.
  destruct (register_known_step request e w id p Hk)
    as (d & p' & Hd & [[Hrun ->] | (Hreq & Hnot & -> & Hrun)]).
  - exists d, w, p. destruct Hk as (Hp & _). eauto 12.
  - pose proof Hk as (Hp & Hm & Hmob & Habha & Haad).
    set (p' := set_abha_id (abhaId request) p) in *.
    set (w' := mkWorld (<[id := p']> (patients w)) (uuid_calls w)) in *.
    assert (Hk' : known_by_mobile request (patients w') id p').
    { unfold known_by_mobile, w'. cbn [patients].
      split; [by rewrite lookup_insert_eq|]. split; [done|].
      assert (Hother : ∀ id' q, <[id := p']> (patients w) !! id' = Some q →
                                id' ≠ id → patients w !! id' = Some q).
      { intros id' q Hq Hne. by rewrite lookup_insert_ne in Hq. }
      repeat split; intros id' q;
        (destruct (decide (id' = id)) as [->|Hne]; [done|]); intros; eauto. }
    exists d, w', p'. split; [done|]. cbn [patients uuid_calls w'].
    split; [by rewrite lookup_insert_eq|]. split; [done|]. split; [done|].
    split; [|split; [by intros; rewrite lookup_insert_ne|split; [done|]]].
    { apply dom_insert_lookup_L. by exists p. }
    destruct (register_known_step request e w' id p' Hk')
      as (d2 & p2 & Hd2 & [[Hrun2 ->] | (_ & Hnot2 & _)]).
    + eauto.
    + unfold p' in Hnot2. cbn in Hnot2. congruence.
Qed.

End HospitalFacts.

Section HospitalRuns.
Import Hospital HospitalScenario.

Lemma asha_known :
  known_by_mobile asha_again (patients sample_world) "11" asha.
Proof.
  assert (Hrows : ∀ id' p', patients sample_world !! id' = Some p' →
                    (id' = "11" ∧ p' = asha) ∨ (id' = "22" ∧ p' = ravi)).
  { intros id' p' H. cbn in H.
    apply lookup_insert_Some in H as [[<- <-]|[_ H]]; [by left|].
    apply lookup_singleton_Some in H as [<- <-]. by right. }
  split; [reflexivity|]. split; [reflexivity|].
  split; [intros id' p' H | split; intros id' p' a H];
    (destruct (Hrows id' p' H) as [[-> ->]|[-> ->]]; [reflexivity|]);
    cbn; intros; simplify_eq.
Defined.

Lemma register_patient_known_mobile_witness :
  ∃ d w' p',
    register_patient asha_again sample_env sample_world = (Return d, w')
    ∧ patients w' !! "11" = Some p'
    ∧ describes sample_env "11" p' d
    ∧ mobile p' = mobile asha
    ∧ dom (patients w') = dom (patients sample_world)
    ∧ (∀ id', id' ≠ "11" → patients w' !! id' = patients sample_world !! id')
    ∧ uuid_calls w' = uuid_calls sample_world
    ∧ ∃ d2, register_patient asha_again sample_env w' = (Return d2, w')
            ∧ describes sample_env "11" p' d2.
Proof.
  exact (register_patient_known_mobile asha_again sample_env sample_world
           "11" asha asha_known).
Defined.

(** The same request on the concrete table: Asha's row comes back with the
    ABHA id filled in, and no row is added. *)
Example asha_registers_again :
  let out := register_patient asha_again sample_env sample_world in
  fst out =
    Return (mkPatientDict "11" "Asha" (Some "9000000001") (Some "asha@abdm")
              None None (Some "123412341234") (Some "Female") None
              (Some "Patient already registered with this Aadhaar number"))
  ∧ map_to_list (patients (snd out))
    = map_to_list (<["11" := set_abha_id (Some "asha@abdm") asha]>
                     (patients sample_world)).
Proof. vm_compute. done. Qed.

(** A request nobody matches takes the registration path. *)
Example meera_is_registered :
  let out := register_patient meera sample_env sample_world in
  fst out =
    Return (mkPatientDict "33" "Meera" (Some "9000000003") None None None None
              (Some "Female") None (Some "Patient registered successfully"))
  ∧ size (patients (snd out)) = 3%nat.
Proof. vm_compute. done. Qed.

(** The gateway's ABHA id collides with Ravi's: the insert is refused and
    the table stays as it was. *)
Example meera_collides_with_ravi :
  register_patient meera strict_env sample_world
  = (Raise (HTTPException 400 "A patient with this ABHA ID already exists"),
     mkWorld (patients sample_world) 1).
Proof. vm_compute. reflexivity. Qed.

End HospitalRuns.

(** * Further properties of the gateway services *)

Section GatewayFrames.
Import Gateway GatewayQueries.

Ltac run :=
  cbv [mbind mret Eff_bind Eff_ret get_db put_db raise now new_uuid encrypt
       add_patient add_consent add_transfer update_consent update_transfer
       send_hip_data_request set_db]; cbn [db clock_reads uuid_calls dispatched
       patients consent_requests data_transfers fst snd].

Lemma same_consent_subject_refl c : same_consent_subject c c.
Proof. by repeat split. Qed.

Lemma same_transfer_subject_refl t : same_transfer_subject t t.
Proof. by repeat split. Qed.

Lemma evolves_refl w : evolves w w.
Proof.
  unfold evolves. repeat split; eauto using same_consent_subject_refl,
    same_transfer_subject_refl.
Qed.

Lemma evolves_trans w1 w2 w3 : evolves w1 w2 → evolves w2 w3 → evolves w1 w3.
Proof.
  intros (Hp & Hc & Ht & Hd & Hk & Hu) (Hp' & Hc' & Ht' & Hd' & Hk' & Hu').
  unfold evolves. split; [eauto|]. split; [|split; [|split; [|lia]]].
  - intros k c H. destruct (Hc k c H) as (c1 & H1 & S1 & S2 & S3).
    destruct (Hc' k c1 H1) as (c2 & H2 & T1 & T2 & T3).
    exists c2. split; [done|]. unfold same_consent_subject. by rewrite T1, T2, T3.
  - intros k t H. destruct (Ht k t H) as (t1 & H1 & S1 & S2 & S3 & S4 & S5 & S6).
    destruct (Ht' k t1 H1) as (t2 & H2 & T1 & T2 & T3 & T4 & T5 & T6).
    exists t2. split; [done|]. unfold same_transfer_subject.
    by rewrite T1, T2, T3, T4, T5, T6.
  - by etrans.
Qed.

(** Writing one fresh patient row. *)
Lemma evolves_new_patient w k p :
  patients (db w) !! k = None →
  evolves w (set_db (set_patients (<[k := p]> (patients (db w))) (db w)) w).
Proof.
  intros Hk. unfold evolves. cbn. split; [|repeat split;
    eauto using same_consent_subject_refl, same_transfer_subject_refl].
  intros k' p' H. rewrite lookup_insert_ne; [done|]. congruence.
Qed.

(** Writing one consent row that is new or keeps its subject. *)
Lemma evolves_consent w k c :
  (∀ c0, consent_requests (db w) !! k = Some c0 → same_consent_subject c0 c) →
  evolves w (set_db (set_consent_requests (<[k := c]> (consent_requests (db w)))
                       (db w)) w).
Proof.
  intros Hk. unfold evolves. cbn. split; [done|]. split; [|repeat split;
    eauto using same_transfer_subject_refl].
  intros k' c' H. destruct (decide (k' = k)) as [->|Hne].
  - exists c. rewrite lookup_insert_eq. eauto.
  - exists c'. rewrite lookup_insert_ne by done.
    eauto using same_consent_subject_refl.
Qed.

(** Writing one transfer row that is new or keeps its subject. *)
Lemma evolves_transfer w k t :
  (∀ t0, data_transfers (db w) !! k = Some t0 → same_transfer_subject t0 t) →
  evolves w (set_db (set_data_transfers (<[k := t]> (data_transfers (db w)))
                       (db w)) w).
Proof.
  intros Hk. unfold evolves. cbn. split; [done|].
  split; [eauto using same_consent_subject_refl|]. split; [|done].
  intros k' t' H. destruct (decide (k' = k)) as [->|Hne].
  - exists t. rewrite lookup_insert_eq. eauto.
  - exists t'. rewrite lookup_insert_ne by done.
    eauto using same_transfer_subject_refl.
Qed.

(** Drawing a uuid, reading the clock. *)
Lemma evolves_counters w k u :
  (clock_reads w ≤ k)%nat → (uuid_calls w ≤ u)%nat →
  evolves w (mkWorld (db w) k u (dispatched w)).
Proof.
  intros Hk Hu. unfold evolves. cbn.
  repeat split; eauto using same_consent_subject_refl,
    same_transfer_subject_refl.
Qed.

Lemma ensure_patient_cases patient_abha_id e w :
  match patients (db w) !! patient_abha_id with
  | Some patient => _ensure_patient patient_abha_id e w = (Return patient, w)
  | None =>
      let patient := mkPatient ("Patient " +:+ patient_abha_id) in
      _ensure_patient patient_abha_id e w =
        (Return patient,
         set_db (set_patients (<[patient_abha_id := patient]> (patients (db w)))
                   (db w)) w)
  end.
Proof.
  unfold _ensure_patient. run.
  destruct (patients (db w) !! patient_abha_id) as [pt|] eqn:Hp; [done|].
  run. by rewrite Hp.
Qed.

Lemma ensure_patient_evolves patient_abha_id e w :
  evolves w (snd (_ensure_patient patient_abha_id e w))
  ∧ is_Some (patients (db (snd (_ensure_patient patient_abha_id e w)))
               !! patient_abha_id).
Proof.
  pose proof (ensure_patient_cases patient_abha_id e w) as H.
  destruct (patients (db w) !! patient_abha_id) as [pt|] eqn:Hp.
  - rewrite H. cbn. split; [apply evolves_refl|by rewrite Hp].
  - cbn zeta in H. rewrite H. cbn [snd]. split; [by apply evolves_new_patient|].
    cbn. rewrite lookup_insert_eq. by eexists.
Qed.

(** ** _ensure_consent_approved *)

(** Given a consent id that is not empty, [_ensure_consent_approved]
    returns that very id and draws no uuid.  A consent found under it and
    already APPROVED means no write at all; one found in another state has
    only its status set; if none is found, one is created under the id. *)
Lemma ensure_consent_with_id (c patient_abha_id hip_id : string)
    (e : Env) (w : World) :
  truthy c = true →
  _ensure_consent_approved (Some c) patient_abha_id hip_id e w =
    (Return c,
     match consent_requests (db w) !! c with
     | Some consent =>
         if String.eqb (consent_status consent) "APPROVED" then w
         else set_db (set_consent_requests
                        (<[c := set_consent_status "APPROVED" consent]>
                           (consent_requests (db w))) (db w)) w
     | None =>
         set_db (set_consent_requests
                   (<[c := auto_consent patient_abha_id hip_id]>
                      (consent_requests (db w))) (db w)) w
     end).
Proof.
  intros Hc. unfold _ensure_consent_approved. rewrite Hc. run.
  destruct (consent_requests (db w) !! c) as [consent|] eqn:Hl.
  - by destruct (String.eqb (consent_status consent) "APPROVED").
  - unfold fresh_consent. rewrite Hc. run. by rewrite Hl.
Qed.

(** Given no consent id, or an empty one, [_ensure_consent_approved]
    draws one uuid and creates the approved consent under
    ["consent-" + uuid]; if that id is taken it raises and the existing
    consent is not overwritten. *)
Lemma ensure_consent_without_id (consent_id : option string)
    (patient_abha_id hip_id : string) (e : Env) (w : World) :
  usable consent_id = false →
  let drawn := mkWorld (db w) (clock_reads w) (S (uuid_calls w)) (dispatched w) in
  _ensure_consent_approved consent_id patient_abha_id hip_id e w =
    match consent_requests (db w) !! drawn_consent_id e w with
    | Some _ => (Raise (IntegrityError "consent_requests"), drawn)
    | None =>
        (Return (drawn_consent_id e w),
         set_db (set_consent_requests
                   (<[drawn_consent_id e w := auto_consent patient_abha_id hip_id]>
                      (consent_requests (db w))) (db w)) drawn)
    end.
Proof.
  intros Hu. cbn zeta. unfold drawn_consent_id.
  assert (fresh_consent consent_id patient_abha_id hip_id e w =
          fresh_consent None patient_abha_id hip_id e w) as Hf.
  { destruct consent_id as [c|]; [|done]. cbn in Hu.
    unfold fresh_consent. by rewrite Hu. }
  assert (_ensure_consent_approved consent_id patient_abha_id hip_id e w =
          fresh_consent None patient_abha_id hip_id e w) as ->.
  { unfold _ensure_consent_approved. destruct consent_id as [c|]; [|done].
    cbn in Hu. by rewrite Hu. }
  unfold fresh_consent. run.
  by destruct (consent_requests (db w) !! _).
Qed.

Lemma ensure_consent_evolves consent_id patient_abha_id hip_id e w :
  evolves w (snd (_ensure_consent_approved consent_id patient_abha_id hip_id e w)).
Proof.
  destruct (usable consent_id) eqn:Hu.
  - destruct consent_id as [c|]; [|done]. cbn in Hu.
    rewrite (ensure_consent_with_id c _ _ _ _ Hu). cbn [snd].
    destruct (consent_requests (db w) !! c) as [consent|] eqn:Hl.
    + destruct (String.eqb (consent_status consent) "APPROVED");
        [apply evolves_refl|].
      apply evolves_consent. intros c0 Hc0. rewrite Hl in Hc0.
      injection Hc0 as <-. by repeat split.
    + apply evolves_consent. intros c0 Hc0. congruence.
  - pose proof (ensure_consent_without_id consent_id patient_abha_id hip_id e w Hu)
      as H. cbn zeta in H. rewrite H. clear H.
    set (drawn := mkWorld (db w) (clock_reads w) (S (uuid_calls w)) (dispatched w)).
    assert (evolves w drawn) as Hd by (apply evolves_counters; lia).
    destruct (consent_requests (db w) !! drawn_consent_id e w) eqn:Hl;
      cbn [snd]; [done|].
    eapply evolves_trans; [exact Hd|].
    apply (evolves_consent drawn). intros c0 Hc0. cbn in Hc0. congruence.
Qed.

(** ** request_health_info, step by step *)

Lemma request_health_info_steps patient_abha_id hip_id hiu_id consent_id
    care_context_ids data_types e w :
  request_health_info patient_abha_id hip_id hiu_id consent_id
    care_context_ids data_types e w =
  match _ensure_consent_approved consent_id patient_abha_id hip_id e
          (snd (_ensure_patient patient_abha_id e w)) with
  | (Return a, w2) =>
      request_tail patient_abha_id hip_id hiu_id care_context_ids data_types
        e a w2
  | (Raise x, w2) => (Raise x, w2)
  end.
Proof.
  unfold request_health_info, request_tail.
  destruct (ensure_patient_run patient_abha_id e w) as (pt & m & Hp).
  run. rewrite Hp. cbn [snd].
  destruct (_ensure_consent_approved consent_id patient_abha_id hip_id e _)
    as [[a|x] w2]; [|done]. run.
  destruct (data_transfers (db w2) !! _); cbn; [done|].
  by rewrite insert_insert_eq.
Qed.

Lemma request_tail_evolves patient_abha_id hip_id hiu_id care_context_ids
    data_types e a w2 :
  evolves w2 (snd (request_tail patient_abha_id hip_id hiu_id care_context_ids
                     data_types e a w2)).
Proof.
  unfold request_tail.
  destruct (data_transfers (db w2) !! _) eqn:Hl; cbn [snd].
  - apply evolves_counters; lia.
  - unfold evolves. cbn. split; [done|].
    split; [eauto using same_consent_subject_refl|].
    split; [|split; [by apply prefix_app_r|lia]].
    intros k t Hk. exists t. split; [|apply same_transfer_subject_refl].
    rewrite lookup_insert_ne; [done|]. congruence.
Qed.

Lemma request_health_info_evolves patient_abha_id hip_id hiu_id consent_id
    care_context_ids data_types e w :
  evolves w (snd (request_health_info patient_abha_id hip_id hiu_id consent_id
                    care_context_ids data_types e w)).
Proof.
  rewrite request_health_info_steps.
  destruct (ensure_patient_evolves patient_abha_id e w) as [H1 _].
  pose proof (ensure_consent_evolves consent_id patient_abha_id hip_id e
                (snd (_ensure_patient patient_abha_id e w))) as H2.
  destruct (_ensure_consent_approved consent_id patient_abha_id hip_id e _)
    as [[a|x] w2]; cbn [snd] in *.
  - eapply evolves_trans; [exact H1|]. eapply evolves_trans; [exact H2|].
    apply request_tail_evolves.
  - by eapply evolves_trans.
Qed.

(** X1: [request_health_info] returns exactly when the identifiers it
    draws are free: the request id, and the consent id when none usable was
    given.  A missing patient, a missing consent or a consent in another
    state never makes it fail.  When it does fail, no webhook was
    attempted and the transfer table is as before. *)
Theorem request_returns_iff_ids_free (patient_abha_id hip_id hiu_id : string)
    (consent_id : option string) (care_context_ids data_types : list string)
    (e : Env) (w : World) :
  match request_health_info patient_abha_id hip_id hiu_id consent_id
          care_context_ids data_types e w with
  | (Return d, w') =>
      ids_free e w consent_id
      ∧ dict_get "requestId" d = Some (drawn_request_id e w consent_id)
  | (Raise x, w') =>
      ¬ ids_free e w consent_id
      ∧ dispatched w' = dispatched w
      ∧ data_transfers (db w') = data_transfers (db w)
  end.
Proof.
  rewrite request_health_info_steps.
  pose proof (ensure_patient_cases patient_abha_id e w) as Hp.
  set (w1 := snd (_ensure_patient patient_abha_id e w)).
  assert (consent_requests (db w1) = consent_requests (db w)
          ∧ data_transfers (db w1) = data_transfers (db w)
          ∧ uuid_calls w1 = uuid_calls w ∧ dispatched w1 = dispatched w
          ∧ clock_reads w1 = clock_reads w) as (Hc1 & Ht1 & Hu1 & Hd1 & Hk1).
  { unfold w1. destruct (patients (db w) !! patient_abha_id);
      cbn zeta in Hp; by rewrite Hp. }
  clearbody w1. clear Hp.
  unfold ids_free, drawn_request_id, drawn_consent_id.
  destruct (usable consent_id) eqn:Hu.
  - destruct consent_id as [c|]; [|done]. cbn in Hu.
    rewrite (ensure_consent_with_id c _ _ _ _ Hu).
    set (w2 := match consent_requests (db w1) !! c with
               | Some _ => _ | None => _ end).
    assert (data_transfers (db w2) = data_transfers (db w1)
            ∧ uuid_calls w2 = uuid_calls w1 ∧ dispatched w2 = dispatched w1)
      as (Ht2 & Hu2 & Hd2).
    { unfold w2. destruct (consent_requests (db w1) !! c) as [consent|];
        [destruct (String.eqb (consent_status consent) "APPROVED")|]; done. }
    clearbody w2. unfold request_tail. rewrite Ht2, Hu2, Ht1, Hu1.
    destruct (data_transfers (db w) !! _) eqn:Hl; cbn.
    + split; [|by rewrite Hd2, Hd1, Ht2, Ht1]. intros [_ H]. congruence.
    + done.
  - pose proof (ensure_consent_without_id consent_id patient_abha_id hip_id e
                  w1 Hu) as H. cbn zeta in H. rewrite H. clear H.
    unfold drawn_consent_id. rewrite Hc1, Hu1.
    destruct (consent_requests (db w) !! _) eqn:Hl.
    + cbn. split; [|done]. intros [H _]. specialize (H eq_refl). congruence.
    + unfold request_tail. cbn. rewrite Ht1.
      destruct (data_transfers (db w) !! _) eqn:Hl2; cbn.
      * split; [|done]. intros [_ H]. congruence.
      * done.
Qed.

Lemma request_new_row (patient_abha_id hip_id hiu_id : string)
    (consent_id : option string) (care_context_ids data_types : list string)
    (e : Env) (w : World) (d : Dict) (w' : World) :
  request_health_info patient_abha_id hip_id hiu_id consent_id
    care_context_ids data_types e w = (Return d, w') →
  ∃ request_id t c,
    dict_get "requestId" d = Some request_id
    ∧ data_transfers (db w) !! request_id = None
    ∧ data_transfers (db w') = <[request_id := t]> (data_transfers (db w))
    ∧ Gateway.patient_abha_id t = patient_abha_id
    ∧ is_Some (patients (db w') !! patient_abha_id)
    ∧ dict_get "consentId" d = Some (transfer_consent_request_id t)
    ∧ consent_requests (db w') !! transfer_consent_request_id t = Some c
    ∧ consent_status c = "APPROVED"
    ∧ from_entity t = hip_id
    ∧ to_entity t = (if truthy hiu_id then hiu_id else "unknown-hiu")
    ∧ data_count t = length data_types
    ∧ encrypted_data t = None.
Proof.
  intros Hrun. rewrite request_health_info_steps in Hrun.
  destruct (ensure_patient_evolves patient_abha_id e w) as [_ Hpat].
  pose proof (ensure_patient_cases patient_abha_id e w) as Hp.
  set (w1 := snd (_ensure_patient patient_abha_id e w)) in *.
  assert (data_transfers (db w1) = data_transfers (db w)) as Ht1.
  { unfold w1. destruct (patients (db w) !! patient_abha_id);
      cbn zeta in Hp; by rewrite Hp. }
  clearbody w1. clear Hp.
  pose proof (ensure_consent_run consent_id patient_abha_id hip_id e w1) as Hc.
  destruct (_ensure_consent_approved consent_id patient_abha_id hip_id e w1)
    as [[a|x] w2]; [|done].
  destruct Hc as [((c & Hc & Hs) & Hp2 & Ht2 & _ & _) _].
  unfold request_tail in Hrun. rewrite Ht2, Ht1 in Hrun.
  destruct (data_transfers (db w) !! _) eqn:Hfresh; [done|].
  injection Hrun as <- <-. eexists _, _, c. cbn.
  rewrite Hp2. unfold str_or. done.
Qed.

(** X2: a returning [request_health_info] adds exactly one transfer, under
    the request id it reports, and touches no other transfer.  The new
    record runs from [hip_id] to [hiu_id] (to ["unknown-hiu"] when
    [hiu_id] is empty), counts the requested data types, holds no payload,
    and refers to a patient that exists and to the consent the call
    reports, which exists and is APPROVED. *)
Theorem request_adds_one_transfer (patient_abha_id hip_id hiu_id : string)
    (consent_id : option string) (care_context_ids data_types : list string)
    (e : Env) (w : World) (d : Dict) (w' : World) :
  request_health_info patient_abha_id hip_id hiu_id consent_id
    care_context_ids data_types e w = (Return d, w') →
  ∃ request_id t c,
    dict_get "requestId" d = Some request_id
    ∧ data_transfers (db w) !! request_id = None
    ∧ data_transfers (db w') = <[request_id := t]> (data_transfers (db w))
    ∧ Gateway.patient_abha_id t = patient_abha_id
    ∧ is_Some (patients (db w') !! patient_abha_id)
    ∧ dict_get "consentId" d = Some (transfer_consent_request_id t)
    ∧ consent_requests (db w') !! transfer_consent_request_id t = Some c
    ∧ consent_status c = "APPROVED"
    ∧ from_entity t = hip_id
    ∧ to_entity t = (if truthy hiu_id then hiu_id else "unknown-hiu")
    ∧ data_count t = length data_types
    ∧ encrypted_data t = None.
Proof. apply request_new_row. Qed.

(** ** Every operation, and every sequence of them *)

Lemma receive_evolves request_id health_data e w :
  evolves w (snd (receive_health_data_from_hip request_id health_data e w)).
Proof.
  destruct (data_transfers (db w) !! request_id) as [t|] eqn:Ht.
  - destruct (receivable (status t)) eqn:Hs.
    + rewrite (receive_accepted _ _ _ _ _ Ht Hs). cbn [snd].
      eapply evolves_trans;
        [apply (evolves_transfer w request_id
                  (set_ready (encrypt_dict e health_data)
                     (utcnow e (clock_reads w)) t))|].
      * intros t0 Ht0. rewrite Ht in Ht0. injection Ht0 as <-.
        by repeat split.
      * apply (evolves_counters (set_db _ w)); cbn; lia.
    + rewrite (receive_rejected _ _ _ _ _ Ht Hs). apply evolves_refl.
  - rewrite (receive_not_found _ _ _ _ Ht). apply evolves_refl.
Qed.

Lemma send_health_info_evolves txn_id patient_id hip_id care_context_id e w :
  evolves w (snd (send_health_info txn_id patient_id hip_id care_context_id e w)).
Proof.
  unfold send_health_info, dangling. run.
  destruct (_ || _); cbn [snd]; [apply evolves_counters; cbn; lia|]. run.
  set (drawn := mkWorld (db w) (clock_reads w) (S (uuid_calls w)) (dispatched w)).
  assert (evolves w drawn) as Hd by (apply evolves_counters; lia).
  destruct (data_transfers (db w) !! uuid4 e (uuid_calls w)) eqn:Hl;
    cbn [snd]; [done|].
  eapply evolves_trans; [exact Hd|].
  apply (evolves_transfer drawn). intros t0 Ht0. cbn in Ht0. congruence.
Qed.

Lemma notify_data_flow_evolves txn_id status' hip_id e w :
  evolves w (snd (notify_data_flow txn_id status' hip_id e w)).
Proof.
  unfold notify_data_flow. run.
  destruct (data_transfers (db w) !! txn_id) as [t|] eqn:Hl; cbn [snd];
    [|apply evolves_refl].
  apply evolves_transfer. intros t0 Ht0. rewrite Hl in Ht0.
  injection Ht0 as <-. by repeat split.
Qed.

Lemma init_consent_evolves patient_abha_id hip_id purpose' e w :
  evolves w (snd (init_consent patient_abha_id hip_id purpose' e w)).
Proof.
  unfold init_consent.
  destruct (ensure_patient_evolves patient_abha_id e w) as [H1 _].
  destruct (ensure_patient_run patient_abha_id e w) as (pt & m & Hp).
  run. rewrite Hp in *. cbn [snd] in *.
  set (w1 := set_db (set_patients m (db w)) w) in *.
  set (drawn := mkWorld (db w1) (clock_reads w1) (S (uuid_calls w1))
                        (dispatched w1)).
  assert (evolves w1 drawn) as Hd by (apply evolves_counters; lia).
  eapply evolves_trans; [exact H1|].
  destruct (consent_requests (db w1) !! uuid4 e (uuid_calls w1)) eqn:Hl;
    cbn [snd]; [done|].
  eapply evolves_trans; [exact Hd|].
  apply (evolves_consent drawn). intros c0 Hc0. cbn in Hc0, Hl. congruence.
Qed.

Lemma notify_consent_evolves consent_id status' e w :
  evolves w (snd (notify_consent consent_id status' e w)).
Proof.
  unfold notify_consent. run.
  destruct (consent_requests (db w) !! consent_id) as [c|] eqn:Hl; cbn [snd];
    [|apply evolves_refl].
  apply evolves_consent. intros c0 Hc0. rewrite Hl in Hc0.
  injection Hc0 as <-. by repeat split.
Qed.

Lemma run_op_evolves e o w : evolves w (snd (run_op o e w)).
Proof.
  destruct o; cbn [run_op];
    eauto using request_health_info_evolves, receive_evolves,
      send_health_info_evolves, notify_data_flow_evolves,
      init_consent_evolves, notify_consent_evolves.
Qed.

(** X3: through every sequence of calls no patient, consent or transfer
    row is deleted; patient rows never change; a consent keeps its
    patient, HIP and purpose; a transfer keeps its consent, patient,
    source, destination, item count and expiry; the webhook log is only
    extended and no counter goes back. *)
Theorem run_ops_evolves (e : Env) (os : list op) (w : World) :
  evolves w (run_ops e os w).
Proof.
  revert w. induction os as [|o os IH]; intros w; cbn [run_ops].
  - apply evolves_refl.
  - eapply evolves_trans; [apply run_op_evolves|apply IH].
Qed.

Lemma run_op_dispatched e o w :
  length (dispatched (snd (run_op o e w))) =
  (length (dispatched w) +
   match o, fst (run_op o e w) with
   | RequestHealthInfo _ _ _ _ _ _, Return _ => 1
   | _, _ => 0
   end)%nat.
Proof.
  destruct o as [p hip hiu c ccs dts|r h|tx p hip cc|tx s hip|p hip pu|c s];
    cbn [run_op].
  - pose proof (request_health_info_run p hip hiu c ccs dts e w) as H.
    destruct (request_health_info p hip hiu c ccs dts e w) as [[d|x] w'];
      cbn [fst snd].
    + destruct H as (rid & a & snap & _ & -> & _). rewrite length_app. done.
    + destruct H as [-> _]. lia.
  - destruct (data_transfers (db w) !! r) as [t|] eqn:Ht.
    + destruct (receivable (status t)) eqn:Hs.
      * rewrite (receive_accepted _ _ _ _ _ Ht Hs). cbn. lia.
      * rewrite (receive_rejected _ _ _ _ _ Ht Hs). cbn. lia.
    + rewrite (receive_not_found _ _ _ _ Ht). cbn. lia.
  - unfold send_health_info, dangling. run.
    destruct (_ || _); cbn; [lia|].
    destruct (data_transfers (db w) !! _); cbn; lia.
  - unfold notify_data_flow. run.
    destruct (data_transfers (db w) !! _); cbn; lia.
  - unfold init_consent.
    destruct (ensure_patient_run p e w) as (pt & m & Hp).
    run. rewrite Hp. run. cbn [set_patients consent_requests].
    destruct (consent_requests (db w) !! _); cbn; lia.
  - unfold notify_consent. run.
    destruct (consent_requests (db w) !! _); cbn; lia.
Qed.

(** X4: through every sequence of calls, the number of webhooks attempted
    is the number of [request_health_info] calls that returned: no other
    operation sends one, and a failing request sends none. *)
Theorem webhooks_count_returned_requests (e : Env) (os : list op) (w : World) :
  length (dispatched (run_ops e os w)) =
  (length (dispatched w) + returned_requests e os w)%nat.
Proof.
  revert w. induction os as [|o os IH]; intros w;
    cbn [run_ops returned_requests]; [lia|].
  rewrite IH, run_op_dispatched. lia.
Qed.

(** A call other than [request_health_info] and [send_health_info] adds no
    transfer. *)
Lemma run_op_no_new_transfer e o w k :
  legacy o = false →
  (∀ p hip hiu c ccs dts, o ≠ RequestHealthInfo p hip hiu c ccs dts) →
  is_Some (data_transfers (db (snd (run_op o e w))) !! k) →
  is_Some (data_transfers (db w) !! k).
Proof.
  intros Hl Hreq.
  destruct o as [p hip hiu c ccs dts|r h|tx p hip cc|tx s hip|p hip pu|c s];
    try done; cbn [run_op].
  - by destruct (Hreq p hip hiu c ccs dts).
  - destruct (data_transfers (db w) !! r) as [t|] eqn:Ht.
    + destruct (receivable (status t)) eqn:Hs.
      * rewrite (receive_accepted _ _ _ _ _ Ht Hs). cbn.
        destruct (decide (k = r)) as [->|Hne]; [by rewrite Ht|].
        by rewrite lookup_insert_ne.
      * by rewrite (receive_rejected _ _ _ _ _ Ht Hs).
    + by rewrite (receive_not_found _ _ _ _ Ht).
  - by rewrite init_consent_transfers.
  - by rewrite notify_consent_transfers.
Qed.

Lemma notify_data_flow_no_new_transfer txn_id status' hip_id e w k :
  is_Some (data_transfers (db (snd (notify_data_flow txn_id status' hip_id e w)))
             !! k) →
  is_Some (data_transfers (db w) !! k).
Proof.
  unfold notify_data_flow. run.
  destruct (data_transfers (db w) !! txn_id) as [t|] eqn:Ht; cbn; [|done].
  destruct (decide (k = txn_id)) as [->|Hne]; [by rewrite Ht|].
  by rewrite lookup_insert_ne.
Qed.

Lemma run_op_references e o w :
  (∀ tx p hip cc, o ≠ SendHealthInfo tx p hip cc) →
  references_resolve (db w) →
  references_resolve (db (snd (run_op o e w))).
Proof.
  intros Ho Hres k t' Hk.
  pose proof (run_op_evolves e o w) as (Hp & Hc & Ht & _).
  assert (Hold : ∀ t, data_transfers (db w) !! k = Some t →
                   is_Some (patients (db (snd (run_op o e w)))
                              !! patient_abha_id t')
                   ∧ is_Some (consent_requests (db (snd (run_op o e w)))
                                !! transfer_consent_request_id t')).
  { intros t Hkt. destruct (Ht k t Hkt) as (t'' & Hk'' & S1 & S2 & _).
    rewrite Hk in Hk''. injection Hk'' as <-. rewrite S1, S2.
    destruct (Hres k t Hkt) as [[p Hpt] [c Hct]].
    split; [exists p; eauto|].
    destruct (Hc _ c Hct) as (c' & Hc' & _). by exists c'. }
  destruct (data_transfers (db w) !! k) as [t|] eqn:Hkw;
    [exact (Hold t eq_refl)|].
  destruct o as [p hip hiu c ccs dts|r h|tx p hip cc|tx s hip|p hip pu|c s].
  - cbn [run_op] in *.
    destruct (request_health_info p hip hiu c ccs dts e w) as [[d|x] w'] eqn:Hr.
    + destruct (request_new_row _ _ _ _ _ _ _ _ _ _ Hr)
        as (rid & t & c0 & _ & _ & Htbl & Hpt & Hpat & _ & Hcons & _).
      cbn [snd] in *. rewrite Htbl in Hk.
      destruct (decide (k = rid)) as [->|Hne];
        [|rewrite lookup_insert_ne in Hk by done; congruence].
      rewrite lookup_insert_eq in Hk. injection Hk as <-.
      rewrite Hpt. split; [done|by exists c0].
    + pose proof (request_health_info_run p hip hiu c ccs dts e w) as H.
      rewrite Hr in H. destruct H as [_ H]. cbn [snd] in Hk.
      rewrite H in Hk. congruence.
  - exfalso. assert (is_Some (data_transfers (db w) !! k)) as [? ?];
      [|congruence].
    eapply (run_op_no_new_transfer e (ReceiveHealthData r h)); [done|done|].
    by exists t'.
  - by destruct (Ho tx p hip cc).
  - exfalso. assert (is_Some (data_transfers (db w) !! k)) as [? ?];
      [|congruence].
    apply (notify_data_flow_no_new_transfer tx s hip e w k).
    exists t'. exact Hk.
  - exfalso. assert (is_Some (data_transfers (db w) !! k)) as [? ?];
      [|congruence].
    eapply (run_op_no_new_transfer e (InitConsent p hip pu)); [done|done|].
    by exists t'.
  - exfalso. assert (is_Some (data_transfers (db w) !! k)) as [? ?];
      [|congruence].
    eapply (run_op_no_new_transfer e (NotifyConsent c s)); [done|done|].
    by exists t'.
Qed.

(** X5: every transfer refers to a patient and a consent that exist, and
    every sequence of calls without [send_health_info] (which stores the
    ids it is given without looking them up) keeps it so, whether or not
    the database enforces a foreign key. *)
Theorem references_stay_resolved (e : Env) (os : list op) (w : World) :
  no_legacy_insert os →
  references_resolve (db w) →
  references_resolve (db (run_ops e os w)).
Proof.
  revert w. induction os as [|o os IH]; intros w Hos Hres; [done|].
  cbn [run_ops]. apply IH.
  - intros tx p hip cc Hin. apply (Hos tx p hip cc). by right.
  - apply run_op_references; [|done].
    intros tx p hip cc ->. apply (Hos tx p hip cc). by left.
Qed.



End GatewayFrames.

Section GatewayCalls.
Import Gateway GatewayQueries.

Ltac run :=
  cbv [mbind mret Eff_bind Eff_ret get_db put_db raise now new_uuid encrypt
       add_patient add_consent add_transfer update_consent update_transfer
       send_hip_data_request set_db]; cbn [db clock_reads uuid_calls dispatched
       patients consent_requests data_transfers fst snd].

(** ** receive_health_data_from_hip *)

(** X6: an accepted submission writes one transfer only, and of it only
    the status, the payload and the due time: the transfer keeps its
    consent, patient, source, destination, item count and expiry; every
    other transfer, every consent and every patient is untouched; no
    webhook is sent and no uuid drawn. *)
Theorem receive_writes_three_columns (request_id : string)
    (health_data : Codec.bundle) (e : Env) (w : World) (t : DataTransfer) :
  data_transfers (db w) !! request_id = Some t →
  receivable (status t) = true →
  ∃ d w' t',
    receive_health_data_from_hip request_id health_data e w = (Return d, w')
    ∧ data_transfers (db w') !! request_id = Some t'
    ∧ same_transfer_subject t t'
    ∧ (∀ k, k ≠ request_id →
         data_transfers (db w') !! k = data_transfers (db w) !! k)
    ∧ consent_requests (db w') = consent_requests (db w)
    ∧ patients (db w') = patients (db w)
    ∧ dispatched w' = dispatched w
    ∧ uuid_calls w' = uuid_calls w.
Proof.
  intros Ht Hs. rewrite (receive_accepted _ _ _ _ _ Ht Hs).
  eexists _, _, _. split; [reflexivity|]. cbn.
  split; [by rewrite lookup_insert_eq|]. split; [by repeat split|].
  split; [|done]. intros k Hne. by rewrite lookup_insert_ne.
Qed.

(** X7: a payload is taken once.  After an accepted submission a second
    one for the same transfer, whatever it carries, is answered with the
    error for status READY and changes nothing: the first payload stays. *)
Theorem receive_only_once (request_id : string) (first second : Codec.bundle)
    (e : Env) (w : World) (t : DataTransfer) :
  data_transfers (db w) !! request_id = Some t →
  receivable (status t) = true →
  let w1 := snd (receive_health_data_from_hip request_id first e w) in
  receive_health_data_from_hip request_id second e w1 =
    (Return [("error", "Invalid request status: READY"); ("status", "FAILED")],
     w1)
  ∧ encrypted_data <$> data_transfers (db w1) !! request_id
    = Some (Some (encrypt_dict e first)).
Proof.
  intros Ht Hs. cbn zeta. rewrite (receive_accepted _ _ _ _ _ Ht Hs). cbn [snd].
  split.
  - rewrite (receive_rejected _ _ _ _
               (set_ready (encrypt_dict e first) (utcnow e (clock_reads w)) t));
      [done| |done].
    cbn. by rewrite lookup_insert_eq.
  - cbn. by rewrite lookup_insert_eq.
Qed.

(** X8: whether the data source can answer a request depends on the
    forwarding webhook.  After a returning [request_health_info] whose
    webhook succeeded, a submission for the reported request id is accepted
    and the transfer becomes READY; after one whose webhook failed, the
    submission is refused with the error for status FAILED and nothing
    changes. *)
Theorem receive_after_request (patient_abha_id hip_id hiu_id : string)
    (consent_id : option string) (care_context_ids data_types : list string)
    (health_data : Codec.bundle) (e : Env) (w : World) (d : Dict) (w' : World) :
  request_health_info patient_abha_id hip_id hiu_id consent_id
    care_context_ids data_types e w = (Return d, w') →
  ∃ request_id,
    dict_get "requestId" d = Some request_id
    ∧ if hip_webhook e (length (dispatched w))
      then ∃ w'',
        receive_health_data_from_hip request_id health_data e w' =
          (Return [("requestId", request_id); ("status", "READY");
                   ("message", "Health data received and ready for delivery")],
           w'')
        ∧ status <$> data_transfers (db w'') !! request_id = Some "READY"
      else
        receive_health_data_from_hip request_id health_data e w' =
          (Return [("error", "Invalid request status: FAILED");
                   ("status", "FAILED")], w').
Proof.
  intros Hrun.
  pose proof (request_health_info_run patient_abha_id hip_id hiu_id consent_id
                care_context_ids data_types e w) as H.
  rewrite Hrun in H.
  destruct H as (rid & a & snap & -> & _ & _ & _ & _ & _ & Hfin & _).
  exists rid. split; [done|].
  assert (∃ t, data_transfers (db w') !! rid = Some t
               ∧ status t = if hip_webhook e (length (dispatched w))
                            then "FORWARDED" else "FAILED") as (t & Hl & Hst).
  { rewrite Hfin, lookup_insert_eq. eexists. split; reflexivity. }
  destruct (hip_webhook e (length (dispatched w))).
  - eexists. rewrite (receive_accepted _ _ _ _ _ Hl) by (by rewrite Hst).
    split; [reflexivity|]. cbn. by rewrite lookup_insert_eq.
  - rewrite (receive_rejected _ _ _ _ _ Hl) by (by rewrite Hst).
    by rewrite Hst.
Qed.

(** ** notify_data_flow *)

(** X9: for an unknown transfer id [notify_data_flow] answers NOT_FOUND and
    changes nothing; for a known one it answers the given status and
    writes only the status of that transfer: the payload, the schedule
    and every other column stay, as does every other row. *)
Theorem notify_data_flow_spec (txn_id status' hip_id : string)
    (e : Env) (w : World) :
  match data_transfers (db w) !! txn_id with
  | None =>
      notify_data_flow txn_id status' hip_id e w =
        (Return [("status", "NOT_FOUND"); ("txnId", txn_id)], w)
  | Some t =>
      notify_data_flow txn_id status' hip_id e w =
        (Return [("status", status'); ("txnId", txn_id)],
         set_db (set_data_transfers
                   (<[txn_id := set_status status' t]> (data_transfers (db w)))
                   (db w)) w)
      ∧ encrypted_data (set_status status' t) = encrypted_data t
      ∧ next_retry_at (set_status status' t) = next_retry_at t
      ∧ same_transfer_subject t (set_status status' t)
  end.
Proof.
  unfold notify_data_flow. run.
  destruct (data_transfers (db w) !! txn_id) as [t|]; [|done].
  by repeat split.
Qed.

(** X10: of two [notify_data_flow] calls for the same transfer the later
    one decides: the database ends up as if only the second had been
    made. *)
Theorem notify_data_flow_last_wins (txn_id s1 s2 h1 h2 : string)
    (e : Env) (w : World) :
  db (snd (notify_data_flow txn_id s2 h2 e
             (snd (notify_data_flow txn_id s1 h1 e w))))
  = db (snd (notify_data_flow txn_id s2 h2 e w)).
Proof.
  unfold notify_data_flow. run.
  destruct (data_transfers (db w) !! txn_id) as [t|] eqn:Ht; cbn.
  - rewrite lookup_insert_eq. cbn. by rewrite insert_insert_eq.
  - by rewrite Ht.
Qed.

(** ** send_health_info *)

(** X11: [send_health_info] returns exactly when the uuid it draws is not
    yet a transfer id and every reference the database enforces names a
    row.  Then exactly one DELIVERED record for destination ["HIU"], with
    one item and no payload, is added under the uuid, nothing else is
    written, and the call answers RECEIVED with the transaction id.
    Otherwise the call raises an [IntegrityError] and the database is as
    before: it never overwrites a transfer and never stores a reference
    the database refuses. *)
Theorem send_health_info_spec (txn_id patient_id hip_id care_context_id : string)
    (e : Env) (w : World) :
  let transfer_id := uuid4 e (uuid_calls w) in
  match send_health_info txn_id patient_id hip_id care_context_id e w with
  | (Return d, w') =>
      d = [("status", "RECEIVED"); ("txnId", txn_id)]
      ∧ data_transfers (db w) !! transfer_id = None
      ∧ references_accepted e (db w) patient_id txn_id
      ∧ data_transfers (db w') =
          <[transfer_id := mkTransfer txn_id patient_id hip_id "HIU"
                             "DELIVERED" 1 None None None]>
            (data_transfers (db w))
      ∧ consent_requests (db w') = consent_requests (db w)
      ∧ patients (db w') = patients (db w)
  | (Raise x, w') =>
      x = IntegrityError "data_transfers"
      ∧ db w' = db w
      ∧ (is_Some (data_transfers (db w) !! transfer_id)
         ∨ ¬ references_accepted e (db w) patient_id txn_id)
  end.
Proof.
  cbn zeta. unfold send_health_info, dangling, references_accepted. run.
  cbn [patient_abha_id transfer_consent_request_id].
  destruct (patient_fk e), (consent_fk e),
    (patients (db w) !! patient_id) as [p|],
    (consent_requests (db w) !! txn_id) as [c|]; cbn;
    try (split; [done|]; split; [done|]; right; intros [H1 H2];
         first [by destruct (H1 eq_refl) | by destruct (H2 eq_refl)]);
    (destruct (data_transfers (db w) !! uuid4 e (uuid_calls w)) eqn:Hk; cbn;
     [split; [done|]; split; [done|]; left; eauto
     |split; [done|]; split; [done|];
      split; [split; intros; first [done | eauto]|done]]).
Qed.

(** ** init_consent, notify_consent and fetch_consent *)

Lemma fetch_consent_run consent_id e w :
  fetch_consent consent_id e w =
    (Return ((λ c, mkConsentArtefact consent_id (consent_status c)
                     [("data", "encrypted-consent-artefact")])
             <$> consent_requests (db w) !! consent_id), w).
Proof.
  unfold fetch_consent. run.
  by destruct (consent_requests (db w) !! consent_id).
Qed.

(** X12: [init_consent] succeeds exactly when the uuid it draws is not yet
    a consent id.  Then the consent is new, is stored APPROVED for the given
    patient, HIP and purpose under the id the call reports, the patient
    exists, no other consent and no transfer is touched, and fetching the
    reported id gives status APPROVED.  Otherwise the call raises and no
    consent is written. *)
Theorem init_consent_spec (patient_abha_id hip_id : string) (purpose' : Dict)
    (e : Env) (w : World) :
  let consent_id := uuid4 e (uuid_calls w) in
  match consent_requests (db w) !! consent_id with
  | Some _ =>
      ∃ w', init_consent patient_abha_id hip_id purpose' e w
            = (Raise (IntegrityError "consent_requests"), w')
        ∧ consent_requests (db w') = consent_requests (db w)
  | None =>
      ∃ w',
        init_consent patient_abha_id hip_id purpose' e w
          = (Return [("consentRequestId", consent_id); ("status", "APPROVED")],
             w')
        ∧ consent_requests (db w') =
            <[consent_id := mkConsent patient_abha_id hip_id purpose' "APPROVED"]>
              (consent_requests (db w))
        ∧ is_Some (patients (db w') !! patient_abha_id)
        ∧ data_transfers (db w') = data_transfers (db w)
        ∧ fetch_consent consent_id e w' =
            (Return (Some (mkConsentArtefact consent_id "APPROVED"
                             [("data", "encrypted-consent-artefact")])), w')
  end.
Proof.
  cbn zeta. unfold init_consent.
  pose proof (ensure_patient_cases patient_abha_id e w) as Hp.
  destruct (ensure_patient_evolves patient_abha_id e w) as [_ Hpat].
  destruct (consent_requests (db w) !! uuid4 e (uuid_calls w)) eqn:Hl;
    destruct (patients (db w) !! patient_abha_id) eqn:Hpt;
    cbn zeta in Hp; rewrite Hp in Hpat; run; rewrite Hp; run;
    cbn [set_patients consent_requests]; rewrite Hl; cbn;
    eexists; (split; [reflexivity|]); cbn in Hpat |- *; try done;
    (split; [done|]); (split; [done|]); (split; [done|]);
    rewrite fetch_consent_run; cbn; by rewrite lookup_insert_eq.
Qed.

(** X13: what [notify_consent] stores is what [fetch_consent] reports: after
    a notification for a known consent, fetching it gives the notified
    status; after one for an unknown consent, fetching it still finds
    nothing.  The fetch itself changes nothing. *)
Theorem fetch_after_notify (consent_id status' : string) (e : Env) (w : World) :
  let w' := snd (notify_consent consent_id status' e w) in
  fetch_consent consent_id e w' =
    (Return (match consent_requests (db w) !! consent_id with
             | Some _ => Some (mkConsentArtefact consent_id status'
                                 [("data", "encrypted-consent-artefact")])
             | None => None
             end), w').
Proof.
  cbn zeta. rewrite fetch_consent_run. unfold notify_consent. run.
  destruct (consent_requests (db w) !! consent_id) eqn:Hl; cbn.
  - by rewrite lookup_insert_eq.
  - by rewrite Hl.
Qed.

(** ** get_data_request_status *)

(** X14: the status query after a returning [request_health_info]: it finds
    the reported request id, shows the status the call reported, the
    patient and both entities, no stored data and no expiry; the retry
    counters are shown exactly when the forwarding failed.  The query
    changes nothing. *)
Theorem status_after_request (columns : string → Bookkeeping)
    (isoformat : datetime → string)
    (patient_abha_id hip_id hiu_id : string) (consent_id : option string)
    (care_context_ids data_types : list string)
    (e : Env) (w : World) (d : Dict) (w' : World) :
  request_health_info patient_abha_id hip_id hiu_id consent_id
    care_context_ids data_types e w = (Return d, w') →
  ∃ request_id info,
    dict_get "requestId" d = Some request_id
    ∧ get_data_request_status columns isoformat request_id e w'
      = (Return (Some info), w')
    ∧ Some (si_status info) = dict_get "status" d
    ∧ si_patientId info = patient_abha_id
    ∧ fromEntity info = hip_id
    ∧ toEntity info = (if truthy hiu_id then hiu_id else "unknown-hiu")
    ∧ dataCount info = length data_types
    ∧ dataStored info = false
    ∧ expiresAt info = None
    ∧ (is_Some (retry info) ↔ hip_webhook e (length (dispatched w)) = false).
Proof.
  intros Hrun.
  pose proof (request_health_info_run patient_abha_id hip_id hiu_id consent_id
                care_context_ids data_types e w) as H.
  rewrite Hrun in H.
  destruct H as (rid & a & snap & -> & _ & _ & _ & _ & _ & Hfin & _).
  exists rid. eexists. split; [done|].
  unfold get_data_request_status. run. rewrite Hfin, lookup_insert_eq.
  split; [reflexivity|]. cbn. unfold str_or.
  destruct (hip_webhook e (length (dispatched w))); cbn;
    repeat split; try done; try (by intros [? ?]); by eexists.
Qed.

(** X15: the status query after an accepted submission shows READY with
    the retry counters; data counts as stored exactly when the encrypted
    payload is not empty, and only then is the expiry shown. *)
Theorem status_after_receive (columns : string → Bookkeeping)
    (isoformat : datetime → string) (request_id : string)
    (health_data : Codec.bundle) (e : Env) (w : World) (t : DataTransfer) :
  data_transfers (db w) !! request_id = Some t →
  receivable (status t) = true →
  let w' := snd (receive_health_data_from_hip request_id health_data e w) in
  ∃ info,
    get_data_request_status columns isoformat request_id e w'
      = (Return (Some info), w')
    ∧ si_status info = "READY"
    ∧ retry info = Some (mkRetryInfo (retry_count (columns request_id))
                           (max_retries (columns request_id))
                           (webhook_attempts (columns request_id))
                           (last_webhook_error (columns request_id)))
    ∧ (dataStored info = true ↔ encrypt_dict e health_data ≠ [])
    ∧ expiresAt info = (if dataStored info
                        then Some (isoformat <$> expires_at t) else None).
Proof.
  intros Ht Hs. cbn zeta. rewrite (receive_accepted _ _ _ _ _ Ht Hs). cbn [snd].
  unfold get_data_request_status. run.
  cbn [set_data_transfers data_transfers]. rewrite lookup_insert_eq.
  eexists. split; [reflexivity|]. cbn.
  split; [done|]. split; [done|].
  destruct (encrypt_dict e health_data); cbn; split; done.
Qed.

(** ** get_consent_status *)

(** X24: the consent a returning [request_health_info] reports can be
    looked up, and both consent queries show it APPROVED, whatever state it
    was in before the call.  The queries change nothing, and an id that
    names no consent gives nothing in both. *)
Theorem consent_queries_after_request
    (consent_created_at : string → option datetime)
    (isoformat : datetime → string)
    (patient_abha_id hip_id hiu_id : string) (consent_id : option string)
    (care_context_ids data_types : list string)
    (e : Env) (w : World) (d : Dict) (w' : World) :
  request_health_info patient_abha_id hip_id hiu_id consent_id
    care_context_ids data_types e w = (Return d, w') →
  (∃ approved,
     dict_get "consentId" d = Some approved
     ∧ get_consent_status consent_created_at isoformat approved e w' =
         (Return (Some (mkConsentStatus approved "APPROVED"
                          (isoformat <$> consent_created_at approved))), w')
     ∧ fetch_consent approved e w' =
         (Return (Some (mkConsentArtefact approved "APPROVED"
                          [("data", "encrypted-consent-artefact")])), w'))
  ∧ ∀ other, consent_requests (db w') !! other = None →
      get_consent_status consent_created_at isoformat other e w' =
        (Return None, w')
      ∧ fetch_consent other e w' = (Return None, w').
Proof.
  intros Hrun.
  destruct (request_new_row _ _ _ _ _ _ _ _ _ _ Hrun)
    as (request_id & t & c & _ & _ & _ & _ & _ & Hd & Hc & Hs & _).
  split.
  - exists (transfer_consent_request_id t). split; [exact Hd|].
    rewrite fetch_consent_run. unfold get_consent_status. run.
    rewrite Hc. cbn. by rewrite Hs.
  - intros other Ho. rewrite fetch_consent_run. unfold get_consent_status. run.
    by rewrite Ho.
Qed.

End GatewayCalls.

(** * Further properties of patient registration *)

Section HospitalLookups.
Import Hospital HospitalQueries.

Ltac run :=
  cbv [mbind mret Eff_bind Eff_ret raise get_patients put_patients ask
       Hospital.new_uuid]; cbn [patients uuid_calls fst snd].

Lemma filter_two {A} (f : A → bool) (l : list A) (x y : A) :
  x ∈ l → y ∈ l → x ≠ y → f x = true → f y = true →
  ∃ a b rest, List.filter f l = a :: b :: rest.
Proof.
  induction l as [|z l IH]; intros Hx Hy Hne Hfx Hfy.
  - by apply elem_of_nil in Hx.
  - cbn. apply elem_of_cons in Hx, Hy.
    assert (Hone : ∀ u, u ∈ l → f u = true → ∃ b rest, List.filter f l = b :: rest).
    { clear. intros u Hu Hfu. induction l as [|v l IH]; [by apply elem_of_nil in Hu|].
      cbn. apply elem_of_cons in Hu as [<-|Hu]; [rewrite Hfu; eauto|].
      destruct (f v); eauto. }
    destruct Hx as [->|Hx], Hy as [->|Hy]; try done.
    + rewrite Hfx. destruct (Hone y Hy Hfy) as (b & rest & ->). eauto.
    + rewrite Hfy. destruct (Hone x Hx Hfx) as (b & rest & ->). eauto.
    + destruct (IH Hx Hy Hne Hfx Hfy) as (a & b & rest & ->).
      destruct (f z); eauto.
Qed.

Lemma scalar_many cond e w i j p q :
  patients w !! i = Some p → patients w !! j = Some q → i ≠ j →
  cond p = true → cond q = true →
  scalar_one_or_none cond e w = (Raise MultipleResultsFound, w).
Proof.
  intros Hi Hj Hne Hp Hq. unfold scalar_one_or_none, select_where. run.
  destruct (filter_two (λ row, cond row.2) (map_to_list (patients w))
              (i, p) (j, q)) as (a & b & rest & ->);
    try done; try (by apply elem_of_map_to_list). congruence.
Qed.

(** A lookup by an optional column that matches no row finds nothing. *)
Lemma optional_lookup_none (column : Patient → option string)
    (value : option string) e w :
  no_match column value (patients w) →
  (if truthy_opt value
   then scalar_one_or_none (λ p, col_eq (column p) (default EmptyString value))
   else mret None) e w = (Return None, w).
Proof.
  intros Hno. destruct value as [a|]; cbn [truthy_opt default]; [|done].
  destruct (truthy a) eqn:Ha; [|done].
  apply scalar_none. intros id p Hp.
  destruct (col_eq (column p) a) eqn:Hc; [|done].
  apply col_eq_true in Hc. by destruct (Hno a eq_refl Ha id p Hp).
Qed.

(** X16: the ABHA id decides first.  When the request carries an ABHA id
    and exactly one row has it, [register_patient] returns that row with
    the ABHA message and writes nothing, whatever the request's Aadhaar
    number and mobile number match. *)
Theorem register_abha_first (request : PatientRegistrationRequest)
    (e : Env) (w : World) (a id : string) (p : Patient) :
  abhaId request = Some a → truthy a = true →
  patients w !! id = Some p → abha_id p = Some a →
  (∀ id' p', patients w !! id' = Some p' → abha_id p' = Some a → id' = id) →
  register_patient request e w =
    (Return (existing_dict e id p "Patient already registered with this ABHA ID"),
     w).
Proof.
  intros Ha Ht Hp Hpa Huniq. unfold register_patient.
  cbv [mbind Eff_bind ask]. rewrite Ha. cbn [truthy_opt default]. rewrite Ht.
  rewrite (scalar_unique _ e w id p); [done|done|by apply col_eq_true|].
  intros id' p' Hp' Hc. apply col_eq_true in Hc. eauto.
Qed.

(** X17: the Aadhaar number decides second.  When no row has the request's
    ABHA id and exactly one row has its Aadhaar number, that row is
    returned with the Aadhaar message, whatever the mobile number matches.
    The row's ABHA id is filled in from the request only when the row has
    none; an ABHA id the row already has is never replaced, and nothing
    else is written. *)
Theorem register_aadhaar_second (request : PatientRegistrationRequest)
    (e : Env) (w : World) (n id : string) (p : Patient) :
  no_match abha_id (abhaId request) (patients w) →
  req_aadhaar request = Some n → truthy n = true →
  patients w !! id = Some p → aadhaar p = Some n →
  (∀ id' p', patients w !! id' = Some p' → aadhaar p' = Some n → id' = id) →
  let fill := truthy_opt (abhaId request) && negb (truthy_opt (abha_id p)) in
  let p' := if fill then set_abha_id (abhaId request) p else p in
  register_patient request e w =
    (Return (existing_dict e id p'
               "Patient already registered with this Aadhaar number"),
     if fill then mkWorld (<[id := p']> (patients w)) (uuid_calls w) else w).
Proof.
  intros Hno Hn Ht Hp Hpn Huniq. cbn zeta. unfold register_patient.
  cbv [mbind Eff_bind ask].
  rewrite (optional_lookup_none abha_id (abhaId request) e w Hno).
  rewrite Hn. cbn [truthy_opt default]. rewrite Ht.
  rewrite (scalar_unique _ e w id p); [|done|by apply col_eq_true|].
  - by destruct (truthy_opt (abhaId request) && negb (truthy_opt (abha_id p))).
  - intros id' p' Hp' Hc. apply col_eq_true in Hc. eauto.
Qed.

(** X18: an ambiguous mobile number is an error, not a registration.
    When neither the ABHA id nor the Aadhaar number of the request matches
    a row and two different rows have its mobile number,
    [register_patient] raises [MultipleResultsFound] and writes nothing. *)
Theorem register_ambiguous_mobile (request : PatientRegistrationRequest)
    (e : Env) (w : World) (i j : string) (p q : Patient) :
  no_match abha_id (abhaId request) (patients w) →
  no_match aadhaar (req_aadhaar request) (patients w) →
  patients w !! i = Some p → patients w !! j = Some q → i ≠ j →
  mobile p = Some (req_mobile request) →
  mobile q = Some (req_mobile request) →
  register_patient request e w = (Raise MultipleResultsFound, w).
Proof.
  intros Hab Haa Hi Hj Hne Hp Hq. unfold register_patient.
  cbv [mbind Eff_bind ask].
  rewrite (optional_lookup_none abha_id (abhaId request) e w Hab).
  rewrite (optional_lookup_none aadhaar (req_aadhaar request) e w Haa).
  unfold find_patient_by_mobile. cbv [mbind Eff_bind ask].
  by rewrite (scalar_many _ e w i j p q Hi Hj Hne);
    [|by apply col_eq_true..].
Qed.

End HospitalLookups.

Section HospitalRegistration.
Import Hospital HospitalQueries.

Ltac run :=
  cbv [mbind mret Eff_bind Eff_ret raise get_patients put_patients ask
       Hospital.new_uuid]; cbn [patients uuid_calls fst snd].

(** [create_new_patient] builds one row from the data it is given, draws
    the row's id, and stores the row unless the database refuses it. *)
Lemma create_new_patient_run patient_data gateway_patient_id' e w :
  ∃ row,
    (name row = req_name patient_data
     ∧ mobile row = Some (req_mobile patient_data)
     ∧ abha_id row = abhaId patient_data
     ∧ abha_address row = abhaAddress patient_data
     ∧ gateway_patient_id row = gateway_patient_id'
     ∧ aadhaar row = req_aadhaar patient_data
     ∧ gender row = none_if_falsy (req_gender patient_data)
     ∧ date_of_birth row =
         match none_if_falsy (dateOfBirth patient_data) with
         | Some s => if contains "T" s then fromisoformat e (replace_Z s)
                     else strptime_ymd e s
         | None => None
         end)
    ∧ let id := uuid4 e (uuid_calls w) in
      match integrity_error e (patients w) row, patients w !! id with
      | None, None =>
          create_new_patient patient_data gateway_patient_id' e w =
            (Return (row_dict e (id, row)),
             mkWorld (<[id := row]> (patients w)) (S (uuid_calls w)))
      | _, _ =>
          ∃ detail,
            create_new_patient patient_data gateway_patient_id' e w =
              (Raise (HTTPException 400 detail),
               mkWorld (patients w) (S (uuid_calls w)))
      end.
Proof.
  unfold create_new_patient. run.
  match goal with
  | |- context [integrity_error e (patients w)
                  (mkPatient ?a ?b ?c ?d ?f ?g ?h ?i)] =>
      exists (mkPatient a b c d f g h i)
  end.
  split; [done|]. cbn zeta.
  destruct (integrity_error e (patients w) _) as [msg|].
  - destruct (contains "aadhaar" (lower msg)); [by eexists|].
    destruct (contains "abha_id" (lower msg)); [by eexists|].
    destruct (contains "mobile" (lower msg)); by eexists.
  - destruct (patients w !! uuid4 e (uuid_calls w)); [by eexists|done].
Qed.

Lemma register_new_run request e w :
  ∃ row,
    mobile row = Some (req_mobile request)
    ∧ let id := uuid4 e (uuid_calls w) in
      match integrity_error e (patients w) row, patients w !! id with
      | None, None =>
          ∃ d p',
            register_new request e w =
              (Return d, mkWorld (<[id := p']> (patients w)) (S (uuid_calls w)))
            ∧ agrees id p' d
            ∧ name p' = req_name request
            ∧ mobile p' = Some (req_mobile request)
            ∧ aadhaar p' = req_aadhaar request
            ∧ (truthy_opt (abhaId request) = true →
               truthy_opt (abha_id p') = true)
            ∧ message d =
                Some ("Patient registered successfully" +:+
                      (if truthy_opt (gateway_patient_id p')
                       then " and synced with gateway" else EmptyString))
            ∧ ((∀ payload, discover_patient e payload = None) →
               abha_id p' = abhaId request
               ∧ gateway_patient_id p' = None
               ∧ gender p' = none_if_falsy (req_gender request))
            ∧ ((∀ payload g, discover_patient e payload = Some g →
                  truthy_opt (g_dateOfBirth g) = false) →
               (∀ s, dateOfBirth request = Some s → read_date e s = None) →
               date_of_birth p' = None ∧ d_dateOfBirth d = None)
      | _, _ =>
          ∃ detail,
            register_new request e w =
              (Raise (HTTPException 400 detail),
               mkWorld (patients w) (S (uuid_calls w)))
      end.
Proof.
  unfold register_new. run.
  set (gr := discover_patient e _).
  match goal with
  | |- context [create_new_patient ?pd ?gp e w] =>
      destruct (create_new_patient_run pd gp e w)
        as (row & (Hn & Hm & Hab & Had & Hgp & Haa & Hge & Hdob) & Hrun)
  end.
  exists row. split; [done|]. cbn zeta in *.
  destruct (integrity_error e (patients w) row);
    [destruct Hrun as (detail & ->); by eexists|].
  destruct (patients w !! uuid4 e (uuid_calls w));
    [destruct Hrun as (detail & ->); by eexists|].
  rewrite Hrun. cbn [row_dict patientId]. run. rewrite lookup_insert_eq.
  clear Hrun.
  cbn [req_name req_mobile abhaId abhaAddress req_aadhaar req_gender
       dateOfBirth] in *.
  set (gaid := match gr with Some g => _ | None => None end) in *.
  set (gaddr := option_bind _ _ g_abhaAddress gr) in *.
  set (ggender := option_bind _ _ g_gender gr) in *.
  set (gdob := option_bind _ _ g_dateOfBirth gr) in *.
  set (gpid := option_bind _ _ g_patientId gr) in *.
  destruct row as [rn rm rab rad rgp raa rge rdob].
  cbn in Hn, Hm, Hab, Had, Hgp, Haa, Hge, Hdob.
  subst rn rm rab rad rgp raa rge.
  assert (Hbad : (∀ payload g, discover_patient e payload = Some g →
                    truthy_opt (g_dateOfBirth g) = false) →
                 (∀ s, dateOfBirth request = Some s → read_date e s = None) →
                 truthy_opt gdob = false ∧ rdob = None).
  { intros G1 G2.
    assert (truthy_opt gdob = false) as Hg.
    { unfold gdob, gr.
      destruct (discover_patient e _) as [g|] eqn:Hgr; cbn;
        [exact (G1 _ g Hgr)|done]. }
    split; [done|]. rewrite Hdob, Hg. unfold none_if_falsy.
    destruct (dateOfBirth request) as [s|]; [|done]. cbn.
    destruct (truthy s); [|done]. exact (G2 s eq_refl). }
  clear Hdob.
  unfold none_if_falsy.
  destruct (truthy_opt gaid) eqn:H1; destruct (truthy_opt gaddr) eqn:H2;
    destruct (truthy_opt ggender) eqn:H3;
    destruct gdob as [dob|]; destruct rdob as [parsed0|];
    try (destruct (truthy dob) eqn:Htd;
         [destruct (fromisoformat e dob) eqn:Hpost|]);
    do 4 (cbn; rewrite ?H1, ?H2, ?H3); rewrite insert_insert_eq;
    (eexists _, _; split; [reflexivity|]); cbn;
    (split; [by repeat split|]); (split; [done|]); (split; [done|]);
    (split; [done|]); (split; [done|]); (split; [done|]);
    (split;
     [intros Hdown; unfold gaid, gpid, ggender, gaddr, gr in *;
      rewrite Hdown in *; cbn in *; done
     |intros G1 G2; destruct (Hbad G1 G2) as [Hg Hr]; cbn in Hg;
      first [congruence | done]]).
Qed.






(** A lookup reads only, and what it finds is a row of the table. *)
Lemma scalar_one_or_none_run cond e w :
  ∃ r, scalar_one_or_none cond e w = (r, w)
       ∧ ∀ id p, r = Return (Some (id, p)) → patients w !! id = Some p.
Proof.
  unfold scalar_one_or_none, select_where. run.
  destruct (List.filter _ (map_to_list (patients w))) as [|x [|y l]] eqn:Hf;
    eexists; (split; [reflexivity|]); intros id p [=]. subst x.
  apply elem_of_map_to_list, list_elem_of_In.
  eapply (proj1 (filter_In _ _ _)). rewrite Hf. by left.
Qed.

Lemma optional_lookup_run (column : Patient → option string)
    (value : option string) e w :
  ∃ r, (if truthy_opt value
        then scalar_one_or_none
               (λ p, col_eq (column p) (default EmptyString value))
        else mret None) e w = (r, w)
       ∧ ∀ id p, r = Return (Some (id, p)) → patients w !! id = Some p.
Proof.
  destruct (truthy_opt value); [apply scalar_one_or_none_run|].
  eexists. split; [reflexivity|]. by intros id p [=].
Qed.

Lemma list_patients_lists e w id p :
  patients w !! id = Some p →
  ∃ l, list_patients e w = (Return l, w) ∧ row_dict e (id, p) ∈ l.
Proof.
  intros Hp. unfold list_patients. run. eexists. split; [reflexivity|].
  apply list_elem_of_fmap. exists (id, p). split; [done|].
  by apply elem_of_map_to_list.
Qed.

(** X22: [register_patient] only ever reports patients that are stored.
    Whenever it returns, on whichever path, the reported patient id names a
    row of the table as the call left it; the row agrees with the response
    on name, mobile number, ABHA id, gateway patient id, Aadhaar number and
    gender; and [list_patients] then lists that row. *)
Theorem register_returns_stored (request : PatientRegistrationRequest)
    (e : Env) (w : World) (d : PatientDict) (w' : World) :
  register_patient request e w = (Return d, w') →
  ∃ p',
    patients w' !! patientId d = Some p'
    ∧ agrees (patientId d) p' d
    ∧ ∃ l, list_patients e w' = (Return l, w')
           ∧ row_dict e (patientId d, p') ∈ l.
Proof.
  intros Hrun.
  assert (∃ p', patients w' !! patientId d = Some p' ∧ agrees (patientId d) p' d)
    as (p' & Hp' & Hag);
    [|exists p'; eauto using list_patients_lists].
  revert Hrun. unfold register_patient. cbv [mbind Eff_bind ask].
  destruct (optional_lookup_run abha_id (abhaId request) e w)
    as (r1 & -> & Hin1).
  destruct r1 as [[[id p]|]|x]; [| |done].
  { intros [= <- <-]. exists p. split; [by apply Hin1|by repeat split]. }
  destruct (optional_lookup_run aadhaar (req_aadhaar request) e w)
    as (r2 & -> & Hin2).
  destruct r2 as [[[id p]|]|x]; [| |done].
  { specialize (Hin2 id p eq_refl).
    destruct (truthy_opt (abhaId request) && negb (truthy_opt (abha_id p)));
      run; intros [= <- <-]; cbn.
    - eexists. rewrite lookup_insert_eq. split; [done|by repeat split].
    - exists p. split; [done|by repeat split]. }
  unfold find_patient_by_mobile. cbv [mbind Eff_bind ask].
  destruct (scalar_one_or_none_run
              (λ p, col_eq (mobile p) (req_mobile request)) e w)
    as (r3 & -> & Hin3).
  destruct r3 as [[[id p]|]|x]; [| |done].
  { run. intros [= <- <-]. exists p. split; [by apply Hin3|by repeat split]. }
  cbv [mret Eff_ret].
  destruct (register_new_run request e w) as (row & Hrow & Hnew).
  cbn zeta in Hnew.
  destruct (integrity_error e (patients w) row);
    [destruct Hnew as (detail & ->); done|].
  destruct (patients w !! uuid4 e (uuid_calls w));
    [destruct Hnew as (detail & ->); done|].
  destruct Hnew as (d0 & p0 & -> & Hag & _).
  intros [= <- <-]. exists p0. cbn [patients].
  destruct Hag as [Hid Hrest]. rewrite Hid, lookup_insert_eq.
  split; [done|]. split; [done|exact Hrest].
Qed.


End HospitalRegistration.

(** * The gateway properties on concrete runs *)

Section GatewayCaseRuns.
Import Gateway GatewayQueries Scenario GatewayCases.

Lemma request_adds_one_transfer_witness :
  let w := world_with_consent "DENIED" in
  let d := sample_answer "req-1b" "consent-0a" "FORWARDED" in
  let w' := snd (request_health_info "p2" "hip1" EmptyString None []
                   ["PRESCRIPTION"; "LAB_REPORT"] sample_env w) in
  ∃ request_id t c,
    dict_get "requestId" d = Some request_id
    ∧ data_transfers (db w) !! request_id = None
    ∧ data_transfers (db w') = <[request_id := t]> (data_transfers (db w))
    ∧ Gateway.patient_abha_id t = "p2"
    ∧ is_Some (patients (db w') !! "p2")
    ∧ dict_get "consentId" d = Some (transfer_consent_request_id t)
    ∧ consent_requests (db w') !! transfer_consent_request_id t = Some c
    ∧ consent_status c = "APPROVED"
    ∧ from_entity t = "hip1"
    ∧ to_entity t = "unknown-hiu"
    ∧ data_count t = 2%nat
    ∧ encrypted_data t = None.
Proof.
  apply (request_adds_one_transfer "p2" "hip1" EmptyString None []
           ["PRESCRIPTION"; "LAB_REPORT"] sample_env
           (world_with_consent "DENIED")).
  vm_compute. reflexivity.
Defined.

Lemma sample_calls_no_legacy_insert : no_legacy_insert sample_calls.
Proof.
  intros txn_id patient_id hip_id care_context_id Hin.
  repeat (apply elem_of_cons in Hin as [Hin|Hin]; [discriminate Hin|]).
  exact (proj1 (elem_of_nil _) Hin).
Defined.

Lemma sample_world_references_resolve :
  references_resolve (db (world_with_transfer "FORWARDED" None)).
Proof.
  intros k t Ht. cbn in Ht. apply lookup_singleton_Some in Ht as [_ <-].
  split; vm_compute; eauto.
Defined.

Lemma references_stay_resolved_witness :
  references_resolve
    (db (run_ops sample_env sample_calls (world_with_transfer "FORWARDED" None))).
Proof.
  exact (references_stay_resolved sample_env sample_calls
           (world_with_transfer "FORWARDED" None)
           sample_calls_no_legacy_insert sample_world_references_resolve).
Defined.


(** A legacy record for ids nobody knows: refused where the foreign keys
    are enforced, stored where they are not. *)
Example unknown_ids_refused_or_stored :
  let w := world_with_consent "APPROVED" in
  send_health_info "c9" "p9" "hip1" "cc-002" sample_env w
    = (Raise (IntegrityError "data_transfers"), mkWorld (db w) 0 1 [])
  ∧ fst (send_health_info "c9" "p9" "hip1" "cc-002" lenient_env w)
    = Return [("status", "RECEIVED"); ("txnId", "c9")]
  ∧ transfer_consent_request_id <$>
      data_transfers
        (db (snd (send_health_info "c9" "p9" "hip1" "cc-002" lenient_env w)))
        !! "0a"
    = Some "c9".
Proof. vm_compute. done. Qed.

Lemma receive_writes_three_columns_witness :
  let w := world_with_transfer "PROCESSING" None in
  let t := sample_transfer "PROCESSING" None in
  ∃ d w' t',
    receive_health_data_from_hip "req-1" sample_bundle sample_env w = (Return d, w')
    ∧ data_transfers (db w') !! "req-1" = Some t'
    ∧ same_transfer_subject t t'
    ∧ (∀ k, k ≠ "req-1" →
         data_transfers (db w') !! k = data_transfers (db w) !! k)
    ∧ consent_requests (db w') = consent_requests (db w)
    ∧ patients (db w') = patients (db w)
    ∧ dispatched w' = dispatched w
    ∧ uuid_calls w' = uuid_calls w.
Proof.
  apply (receive_writes_three_columns "req-1" sample_bundle sample_env
           (world_with_transfer "PROCESSING" None)
           (sample_transfer "PROCESSING" None)); reflexivity.
Defined.

Lemma receive_only_once_witness :
  let w := world_with_transfer "REQUESTED" None in
  let w1 := snd (receive_health_data_from_hip "req-1" sample_bundle sample_env w) in
  receive_health_data_from_hip "req-1" [] sample_env w1 =
    (Return [("error", "Invalid request status: READY"); ("status", "FAILED")],
     w1)
  ∧ encrypted_data <$> data_transfers (db w1) !! "req-1"
    = Some (Some (encrypt_dict sample_env sample_bundle)).
Proof.
  apply (receive_only_once "req-1" sample_bundle [] sample_env
           (world_with_transfer "REQUESTED" None)
           (sample_transfer "REQUESTED" None)); reflexivity.
Defined.

Lemma receive_after_request_witness :
  let w := world_with_consent "APPROVED" in
  let d := sample_answer "req-0a" "c1" "FAILED" in
  let w' := snd (request_health_info "p1" "hip1" "hiu1" (Some "c1")
                   ["cc-001"] ["PRESCRIPTION"] offline_env w) in
  ∃ request_id,
    dict_get "requestId" d = Some request_id
    ∧ if hip_webhook offline_env (length (dispatched w))
      then ∃ w'',
        receive_health_data_from_hip request_id sample_bundle offline_env w' =
          (Return [("requestId", request_id); ("status", "READY");
                   ("message", "Health data received and ready for delivery")],
           w'')
        ∧ status <$> data_transfers (db w'') !! request_id = Some "READY"
      else
        receive_health_data_from_hip request_id sample_bundle offline_env w' =
          (Return [("error", "Invalid request status: FAILED");
                   ("status", "FAILED")], w').
Proof.
  apply (receive_after_request "p1" "hip1" "hiu1" (Some "c1")
           ["cc-001"] ["PRESCRIPTION"] sample_bundle offline_env
           (world_with_consent "APPROVED")).
  vm_compute. reflexivity.
Defined.

Lemma status_after_request_witness :
  let w := world_with_consent "APPROVED" in
  let d := sample_answer "req-0a" "c1" "FAILED" in
  let w' := snd (request_health_info "p1" "hip1" "hiu1" (Some "c1")
                   ["cc-001"] ["PRESCRIPTION"] offline_env w) in
  ∃ request_id info,
    dict_get "requestId" d = Some request_id
    ∧ get_data_request_status fresh_columns sample_isoformat request_id
        offline_env w' = (Return (Some info), w')
    ∧ Some (si_status info) = dict_get "status" d
    ∧ si_patientId info = "p1"
    ∧ fromEntity info = "hip1"
    ∧ toEntity info = "hiu1"
    ∧ dataCount info = 1%nat
    ∧ dataStored info = false
    ∧ expiresAt info = None
    ∧ (is_Some (retry info) ↔ hip_webhook offline_env (length (dispatched w)) = false).
Proof.
  apply (status_after_request fresh_columns sample_isoformat
           "p1" "hip1" "hiu1" (Some "c1") ["cc-001"] ["PRESCRIPTION"]
           offline_env (world_with_consent "APPROVED")).
  vm_compute. reflexivity.
Defined.

Lemma consent_queries_after_request_witness :
  let w := world_with_consent "REVOKED" in
  let d := sample_answer "req-0a" "c1" "FORWARDED" in
  let w' := snd (request_health_info "p1" "hip1" "hiu1" (Some "c1")
                   ["cc-001"] ["PRESCRIPTION"] sample_env w) in
  (∃ approved,
     dict_get "consentId" d = Some approved
     ∧ get_consent_status (created_at ∘ fresh_columns) sample_isoformat
         approved sample_env w' =
         (Return (Some (mkConsentStatus approved "APPROVED"
                          (sample_isoformat
                             <$> (created_at ∘ fresh_columns) approved))), w')
     ∧ fetch_consent approved sample_env w' =
         (Return (Some (mkConsentArtefact approved "APPROVED"
                          [("data", "encrypted-consent-artefact")])), w'))
  ∧ ∀ other, consent_requests (db w') !! other = None →
      get_consent_status (created_at ∘ fresh_columns) sample_isoformat
        other sample_env w' = (Return None, w')
      ∧ fetch_consent other sample_env w' = (Return None, w').
Proof.
  apply (consent_queries_after_request (created_at ∘ fresh_columns)
           sample_isoformat "p1" "hip1" "hiu1" (Some "c1")
           ["cc-001"] ["PRESCRIPTION"] sample_env
           (world_with_consent "REVOKED")).
  vm_compute. reflexivity.
Defined.

Lemma status_after_receive_witness :
  let w := world_with_transfer "FORWARDED" None in
  let w' := snd (receive_health_data_from_hip "req-1" sample_bundle sample_env w) in
  ∃ info,
    get_data_request_status fresh_columns sample_isoformat "req-1" sample_env w'
      = (Return (Some info), w')
    ∧ si_status info = "READY"
    ∧ retry info = Some (mkRetryInfo 0 3 0 None)
    ∧ (dataStored info = true ↔ encrypt_dict sample_env sample_bundle ≠ [])
    ∧ expiresAt info = (if dataStored info
                        then Some (sample_isoformat <$> Some 1767312000000000)
                        else None).
Proof.
  apply (status_after_receive fresh_columns sample_isoformat "req-1"
           sample_bundle sample_env (world_with_transfer "FORWARDED" None)
           (sample_transfer "FORWARDED" None)); reflexivity.
Defined.

End GatewayCaseRuns.

(** * The registration properties on concrete runs *)

Section HospitalCaseRuns.
Import Hospital HospitalQueries HospitalScenario HospitalCases.

Lemma sample_world_rows id' p' :
  patients sample_world !! id' = Some p' →
  (id' = "11" ∧ p' = asha) ∨ (id' = "22" ∧ p' = ravi).
Proof.
  intros H. cbn in H.
  apply lookup_insert_Some in H as [[<- <-]|[_ H]]; [by left|].
  apply lookup_singleton_Some in H as [<- <-]. by right.
Defined.

Lemma family_world_rows id' p' :
  patients family_world !! id' = Some p' →
  (id' = "11" ∧ p' = asha) ∨ (id' = "44" ∧ p' = kiran).
Proof.
  intros H. cbn in H.
  apply lookup_insert_Some in H as [[<- <-]|[_ H]]; [by left|].
  apply lookup_singleton_Some in H as [<- <-]. by right.
Defined.

Lemma no_match_none column tbl : no_match column None tbl.
Proof. intros a Ha. discriminate Ha. Defined.



Lemma register_abha_first_witness :
  register_patient ravi_again sample_env sample_world =
    (Return (existing_dict sample_env "22" ravi
               "Patient already registered with this ABHA ID"),
     sample_world).
Proof.
  apply (register_abha_first ravi_again sample_env sample_world
           "ravi@abdm" "22" ravi); try reflexivity.
  intros id' p' H Ha.
  destruct (sample_world_rows id' p' H) as [[-> ->]|[-> ->]];
    [discriminate Ha|reflexivity].
Defined.

Lemma register_aadhaar_second_witness :
  let p' := set_abha_id (Some "asha@abdm") asha in
  register_patient asha_again sample_env sample_world =
    (Return (existing_dict sample_env "11" p'
               "Patient already registered with this Aadhaar number"),
     mkWorld (<["11" := p']> (patients sample_world)) 0).
Proof.
  apply (register_aadhaar_second asha_again sample_env sample_world
           "123412341234" "11" asha); try reflexivity.
  - intros a [= <-] _ id p H.
    destruct (sample_world_rows id p H) as [[-> ->]|[-> ->]]; discriminate.
  - intros id' p' H Ha.
    destruct (sample_world_rows id' p' H) as [[-> ->]|[-> ->]];
      [reflexivity|discriminate Ha].
Defined.

Lemma register_ambiguous_mobile_witness :
  register_patient walk_in sample_env family_world
  = (Raise MultipleResultsFound, family_world).
Proof.
  apply (register_ambiguous_mobile walk_in sample_env family_world
           "11" "44" asha kiran);
    try reflexivity; try apply no_match_none.
  discriminate.
Defined.




Lemma register_returns_stored_witness :
  let d := mkPatientDict "11" "Asha" (Some "9000000001") (Some "asha@abdm")
             None None (Some "123412341234") (Some "Female") None
             (Some "Patient already registered with this Aadhaar number") in
  let w' := snd (register_patient asha_again sample_env sample_world) in
  ∃ p',
    patients w' !! "11" = Some p'
    ∧ agrees "11" p' d
    ∧ ∃ l, list_patients sample_env w' = (Return l, w')
           ∧ row_dict sample_env ("11", p') ∈ l.
Proof.
  intros d w'.
  apply (register_returns_stored asha_again sample_env sample_world d w').
  vm_compute. reflexivity.
Defined.



(** The same calendar reads Meera's date once it is written year first,
    and the registration stores it. *)
Example meera_year_first_is_stored :
  read_date calendar_env "1985-05-05" = Some 484099200000000
  ∧ d_dateOfBirth <$>
      (match fst (register_patient meera calendar_env sample_world) with
       | Return d => Some d
       | Raise _ => None
       end)
    = Some (Some "1985-05-05T00:00:00").
Proof. vm_compute. done. Qed.

End HospitalCaseRuns.
